(** * A shallow embedding of the ledger engine of [accounting_system.py]

    The engine keeps a double-entry ledger in an SQLite database reached
    through one connection.  The embedding follows the Python source
    function by function:

    - a [Decimal] is an integer number of units of one fixed scale; the
      engine only adds, subtracts, takes absolute values of and compares
      amounts, and those operations commute with the scaling (the context
      precision of Python's decimal module and the non-finite values are
      outside the model);
    - amounts are bound to the REAL columns as [float(debit)] and read back
      as [Decimal(str(x))]; that boundary is the interface [RealModel];
    - a table is the list of its rows in insertion order, an INSERT checks
      the primary key, and a connection holds the committed database next to
      the working copy that statements act on, so that [commit] and
      [rollback] are what they are in the source;
    - the [created_date] columns (filled by CURRENT_TIMESTAMP) are left out;
    - file access and XML parsing are outside the model: the import takes the
      parsed statement that [parse_ofx_file] returns. *)

From Stdlib Require Import ZArith List String Ascii Bool Arith Lia Permutation.
From Stdlib Require Decimal DecimalNat DecimalString.
From Stdlib Require Import SpecFloat.
Import ListNotations.

Local Open Scope string_scope.
Local Open Scope Z_scope.

(** ** Values *)

Inductive AccountType := ASSET | LIABILITY | EQUITY | REVENUE | EXPENSE.

(** [account_type in ['ASSET', 'EXPENSE']] *)
Definition debit_normal (t : AccountType) : bool :=
  match t with
  | ASSET | EXPENSE => true
  | LIABILITY | EQUITY | REVENUE => false
  end.

Abbreviation Decimal := Z (only parsing).

(** [sum(...)] over Decimals, starting from 0 as Python's [sum] does. *)
Definition sum (l : list Decimal) : Decimal := fold_left Z.add l 0.
Arguments sum : simpl never.

Record date := mkdate { year : nat; month : nat; day : nat }.

Definition date_eqb (a b : date) : bool :=
  (year a =? year b)%nat && (month a =? month b)%nat && (day a =? day b)%nat.

(** Order of the ISO texts [YYYY-MM-DD], which is the order of the dates. *)
Definition date_leb (a b : date) : bool :=
  (year a <? year b)%nat
  || ((year a =? year b)%nat
      && ((month a <? month b)%nat
          || ((month a =? month b)%nat && (day a <=? day b)%nat))).

Definition date_ltb (a b : date) : bool := date_leb a b && negb (date_eqb a b).

(** ** Text formatting *)

(** [str(n)] for a natural number. *)
Definition str_nat (n : nat) : string :=
  DecimalString.NilEmpty.string_of_uint (Nat.to_uint n).

Fixpoint zeros (k : nat) : string :=
  match k with
  | O => EmptyString
  | S k' => String "0" (zeros k')
  end.

(** [f"{n:0wd}"]: at least [w] digits, padded with zeros on the left. *)
Definition zfill (w : nat) (n : nat) : string :=
  let s := str_nat n in zeros (w - String.length s) ++ s.

(** The text before and after the last underscore, as Python's
    [s.rpartition('_')] gives them; [None] where there is no underscore. *)
Fixpoint rpartition_underscore (s : string) : option (string * string) :=
  match s with
  | EmptyString => None
  | String c s' =>
      match rpartition_underscore s' with
      | Some (before, after) => Some (String c before, after)
      | None => if Ascii.eqb c "_" then Some (EmptyString, s') else None
      end
  end.

(** Reading a sequence of digits back as a number. *)
Definition read_nat (s : string) : option nat :=
  option_map Nat.of_uint (DecimalString.NilEmpty.uint_of_string s).

(** [d.strftime('%Y%m%d')] *)
Definition strftime_Ymd (d : date) : string :=
  zfill 4 (year d) ++ zfill 2 (month d) ++ zfill 2 (day d).

(** [f"TXN-{date_str}-{count:03d}"] *)
Definition txn_id (date_str : string) (count : nat) : string :=
  "TXN-" ++ date_str ++ "-" ++ zfill 3 count.

(** [f"{transaction_id}_{i+1}"] *)
Definition entry_id (transaction_id : string) (i : nat) : string :=
  transaction_id ++ "_" ++ str_nat (i + 1).

(** [f"{x}"] of a value that may be [None]. *)
Definition fstr (x : option string) : string :=
  match x with
  | Some s => s
  | None => "None"
  end.

(** ** The boundary to binary floating point

    [float] is Python's [float(d)] of a Decimal, [SUM] is SQLite's [SUM()]
    over the non-NULL REAL values of a non-empty group, and [Decimal_str] is
    [Decimal(str(x))] of a value read back. *)
Class RealModel := {
  real : Type;
  float : Decimal -> real;
  SUM : list real -> real;
  Decimal_str : real -> Decimal
}.

(** An idealised store that keeps every amount as it is. *)
Definition ExactReal : RealModel :=
  {| real := Z; float := fun d => d; SUM := fun l => fold_left Z.add l 0;
     Decimal_str := fun x => x |}.

(** IEEE 754 binary64, the format of Python's float and of a REAL column:
    53 bits of precision, exponents up to 1024.  [float64 n] is the float
    nearest to the integer [n], ties to even. *)
Definition float64 (n : Z) : spec_float := binary_normalize 53 1024 n 0 false.

Definition Binary64 (sum64 : list spec_float -> spec_float)
    (decimal_str64 : spec_float -> Decimal) : RealModel :=
  {| real := spec_float; float := float64; SUM := sum64;
     Decimal_str := decimal_str64 |}.

(** The parsers of the import: [datetime.strptime(s, '%Y%m%d').date()] and
    [Decimal(s)], [None] where Python raises. *)
Class Parsers := {
  strptime_Ymd : string -> option date;
  Decimal_of_string : string -> option Decimal
}.

(** ** Text helpers of the import and export *)

(** Python's [str.strip()] on ASCII text: blanks are the characters 9 to 13
    and 28 to 32. *)
Definition is_space (c : ascii) : bool :=
  let n := nat_of_ascii c in
  ((9 <=? n) && (n <=? 13) || (28 <=? n) && (n <=? 32))%nat.

Fixpoint lstrip_list (l : list ascii) : list ascii :=
  match l with
  | c :: l' => if is_space c then lstrip_list l' else l
  | [] => []
  end.

Definition strip (s : string) : string :=
  string_of_list_ascii
    (rev (lstrip_list (rev (lstrip_list (list_ascii_of_string s))))).

(** ** Query helpers *)

(** Stable insertion sort: the rows of an [ORDER BY]. *)
Fixpoint insert_sorted {A : Type} (leb : A -> A -> bool) (x : A) (l : list A)
    : list A :=
  match l with
  | [] => [x]
  | y :: l' => if leb x y then x :: l else y :: insert_sorted leb x l'
  end.

Definition order_by {A : Type} (leb : A -> A -> bool) (l : list A) : list A :=
  fold_right (insert_sorted leb) [] l.

(** ** Failures *)

Inductive exn :=
| ValueError_not_balanced (total_debits total_credits : Decimal)
| ValueError_account_not_found (account_id : string)
| IntegrityError (table id : string).

Inductive result (A : Type) :=
| Ok (a : A)
| Raise (e : exn).
Arguments Ok {A} a.
Arguments Raise {A} e.

Definition bind {A B : Type} (m : result A) (k : A -> result B) : result B :=
  match m with
  | Ok a => k a
  | Raise e => Raise e
  end.

Notation "x <- m ;; k" := (bind m (fun x => k))
  (at level 61, m at next level, right associativity).

(** What [create_transaction] tells its caller: the value it returns and the
    line it prints. *)
Inductive report :=
| Created
| Error_creating_transaction (e : exn).

Definition returned (r : report) : bool :=
  match r with
  | Created => true
  | Error_creating_transaction _ => false
  end.

(** A posting request line: [(account_id, debit, credit, description)]. *)
Definition entry : Type := string * Decimal * Decimal * string.

Definition entry_debit (e : entry) : Decimal := snd (fst (fst e)).
Definition entry_credit (e : entry) : Decimal := snd (fst e).

(** One parsed [STMTTRN] block; a field is [None] where the tag is empty. *)
Record stmttrn := {
  fitid : option string;
  trntype : option string;
  dtposted : option string;
  trnamt : option string;
  name : option string;
  memo : option string
}.

(** What [parse_ofx_file] returns. *)
Record ofx_data := {
  bank_id : option string;
  account_id : option string;
  stmttrns : list stmttrn
}.

(** One exported [STMTTRN] block, before it is rendered as text. *)
Record exported_trn := {
  x_trntype : string;
  x_dtposted : string;
  x_trnamt : Decimal;
  x_fitid : string;
  x_name : string;
  x_memo : string
}.

Record account_row := {
  a_id : string;
  a_name : string;
  a_account_type : AccountType;
  a_parent_id : option string;
  a_description : string;
  a_is_active : bool
}.

Record transaction_row := {
  t_id : string;
  t_date : date;
  t_description : string;
  t_reference : option string
}.

Record import_row := {
  i_id : string;
  i_bank_id : option string;
  i_account_id : option string;
  i_file_hash : string;
  i_transactions_imported : nat
}.

(** ** The database and the connection *)

Section Engine.

Context {RM : RealModel}.

Record entry_row := {
  e_id : string;
  e_transaction_id : string;
  e_account_id : string;
  e_debit_amount : real;
  e_credit_amount : real;
  e_description : string
}.

Record database := {
  accounts : list account_row;
  transactions : list transaction_row;
  transaction_entries : list entry_row;
  ofx_imports : list import_row
}.

Record connection := {
  committed : database;
  working : database
}.

(** [self.conn.commit()] and [self.conn.rollback()] *)
Definition commit (conn : connection) : connection :=
  {| committed := working conn; working := working conn |}.

Definition rollback (conn : connection) : connection :=
  {| committed := committed conn; working := committed conn |}.

Definition execute (conn : connection) (db : database) : connection :=
  {| committed := committed conn; working := db |}.

(** The ids are primary keys, so a lookup by id meets at most one row. *)
Definition find_account (db : database) (id : string) : option account_row :=
  find (fun a => a_id a =? id)%string (accounts db).

Definition find_transaction (db : database) (id : string)
    : option transaction_row :=
  find (fun t => t_id t =? id)%string (transactions db).

Definition transaction_exists (db : database) (id : string) : bool :=
  existsb (fun t => t_id t =? id)%string (transactions db).

(** [INSERT INTO transactions ...] *)
Definition insert_transaction (db : database) (row : transaction_row)
    : result database :=
  if transaction_exists db (t_id row)
  then Raise (IntegrityError "transactions" (t_id row))
  else Ok {| accounts := accounts db;
             transactions := (transactions db ++ [row])%list;
             transaction_entries := transaction_entries db;
             ofx_imports := ofx_imports db |}.

(** [INSERT INTO transaction_entries ...] *)
Definition insert_entry (db : database) (row : entry_row) : result database :=
  if existsb (fun e => e_id e =? e_id row)%string (transaction_entries db)
  then Raise (IntegrityError "transaction_entries" (e_id row))
  else Ok {| accounts := accounts db;
             transactions := transactions db;
             transaction_entries := (transaction_entries db ++ [row])%list;
             ofx_imports := ofx_imports db |}.

(** [INSERT INTO ofx_imports ...] *)
Definition insert_import (db : database) (row : import_row) : result database :=
  if existsb (fun i => i_id i =? i_id row)%string (ofx_imports db)
  then Raise (IntegrityError "ofx_imports" (i_id row))
  else Ok {| accounts := accounts db;
             transactions := transactions db;
             transaction_entries := transaction_entries db;
             ofx_imports := (ofx_imports db ++ [row])%list |}.

(** ** [create_account]: INSERT OR IGNORE, commit, [rowcount > 0] *)
Definition create_account (conn : connection) (account_id : string)
    (name : string) (account_type : AccountType) (parent_id : option string)
    (description : string) : connection * bool :=
  let db := working conn in
  match find_account db account_id with
  | Some _ => (commit conn, false)
  | None =>
      (commit (execute conn
         {| accounts :=
              (accounts db ++
               [{| a_id := account_id; a_name := name;
                   a_account_type := account_type; a_parent_id := parent_id;
                   a_description := description; a_is_active := true |}])%list;
            transactions := transactions db;
            transaction_entries := transaction_entries db;
            ofx_imports := ofx_imports db |}), true)
  end.

(** ** [generate_transaction_id] *)

(** The [while True] loop: [fuel] bounds the number of candidates tried. *)
Fixpoint first_unused (db : database) (date_str : string) (fuel count : nat)
    : option string :=
  match fuel with
  | O => None
  | S fuel' =>
      let transaction_id := txn_id date_str count in
      if transaction_exists db transaction_id
      then first_unused db date_str fuel' (count + 1)
      else Some transaction_id
  end.

(** [SELECT COUNT( * ) FROM transactions WHERE date = ?] *)
Definition count_on_date (db : database) (d : date) : nat :=
  List.length (filter (fun t => date_eqb (t_date t) d) (transactions db)).

Definition generate_transaction_id (conn : connection)
    (transaction_date : date) (amount : Decimal) : option string :=
  let db := working conn in
  let date_str := strftime_Ymd transaction_date in
  let count := (count_on_date db transaction_date + 1)%nat in
  first_unused db date_str (S (List.length (transactions db))) count.

(** ** [create_transaction] *)

(** The loop [for i, (...) in enumerate(entries)], from index [i] on. *)
Fixpoint insert_entries (transaction_id : string) (i : nat)
    (entries : list entry) (db : database) : result database :=
  match entries with
  | [] => Ok db
  | (account_id, debit, credit, entry_desc) :: rest =>
      db' <- insert_entry db
               {| e_id := entry_id transaction_id i;
                  e_transaction_id := transaction_id;
                  e_account_id := account_id;
                  e_debit_amount := float debit;
                  e_credit_amount := float credit;
                  e_description := entry_desc |} ;;
      insert_entries transaction_id (S i) rest db'
  end.

(** The body of the [try] block, up to the commit. *)
Definition create_transaction_body (db : database) (transaction_id : string)
    (transaction_date : date) (description : string) (entries : list entry)
    (reference : option string) : result database :=
  let total_debits := sum (map entry_debit entries) in
  let total_credits := sum (map entry_credit entries) in
  if negb (total_debits =? total_credits)
  then Raise (ValueError_not_balanced total_debits total_credits)
  else
    db' <- insert_transaction db
             {| t_id := transaction_id; t_date := transaction_date;
                t_description := description; t_reference := reference |} ;;
    insert_entries transaction_id 0 entries db'.

Definition create_transaction (conn : connection) (transaction_id : string)
    (transaction_date : date) (description : string) (entries : list entry)
    (reference : option string) : connection * report :=
  match create_transaction_body (working conn) transaction_id
          transaction_date description entries reference with
  | Ok db' => (commit (execute conn db'), Created)
  | Raise e => (rollback conn, Error_creating_transaction e)
  end.

(** ** [get_account_balance] *)

(** [date(t.date) <= date(?)] on the row of [te] in
    [... LEFT JOIN transactions t ON te.transaction_id = t.id]: the
    comparison is NULL, hence not satisfied, where no transaction matches. *)
Definition dated_up_to (db : database) (as_of : date) (te : entry_row) : bool :=
  match find_transaction db (e_transaction_id te) with
  | Some t => date_leb (t_date t) as_of
  | None => false
  end.

(** The entry rows of the group that the query of [get_account_balance]
    aggregates for an account that exists. *)
Definition balance_rows (db : database) (account_id : string)
    (as_of_date : option date) : list entry_row :=
  filter
    (fun te =>
       (e_account_id te =? account_id)%string &&
       match as_of_date with
       | Some d => dated_up_to db d te
       | None => true
       end)
    (transaction_entries db).

(** [Decimal(str(row['total']))] where [total] is [COALESCE(SUM(col), 0)]:
    the sum of no value is NULL, which COALESCE turns into the integer 0. *)
Definition read_total (col : list real) : Decimal :=
  match col with
  | [] => 0
  | _ :: _ => Decimal_str (SUM col)
  end.

Definition get_account_balance (conn : connection) (account_id : string)
    (as_of_date : option date) : Decimal :=
  let db := working conn in
  match find_account db account_id with
  | None => 0
  | Some a =>
      let rows := balance_rows db account_id as_of_date in
      match as_of_date, rows with
      | Some _, [] => 0
      | _, _ =>
          let total_debits := read_total (map e_debit_amount rows) in
          let total_credits := read_total (map e_credit_amount rows) in
          if debit_normal (a_account_type a)
          then total_debits - total_credits
          else total_credits - total_debits
      end
  end.

(** ** [generate_trial_balance] *)

Definition trial_row : Type := string * string * Decimal * Decimal.

(** [account_type in ['LIABILITY', 'EQUITY', 'REVENUE']] *)
Definition credit_normal (t : AccountType) : bool :=
  match t with
  | LIABILITY | EQUITY | REVENUE => true
  | ASSET | EXPENSE => false
  end.

(** [SELECT id, name, account_type FROM accounts WHERE is_active = 1
     ORDER BY id] *)
Definition active_accounts (db : database) : list account_row :=
  order_by (fun a b => String.leb (a_id a) (a_id b))
    (filter a_is_active (accounts db)).

(** One turn of the loop over the accounts; the state is
    [(trial_balance, total_debits, total_credits)]. *)
Definition trial_step (conn : connection) (as_of_date : option date)
    (st : list trial_row * Decimal * Decimal) (account : account_row)
    : list trial_row * Decimal * Decimal :=
  let '(trial_balance, total_debits, total_credits) := st in
  let account_id := a_id account in
  let name := a_name account in
  let account_type := a_account_type account in
  let balance := get_account_balance conn account_id as_of_date in
  if negb (balance =? 0) then
    if debit_normal account_type && (0 <? balance) then
      ((trial_balance ++ [(account_id, name, balance, 0)])%list,
       total_debits + balance, total_credits)
    else if credit_normal account_type && (0 <? balance) then
      ((trial_balance ++ [(account_id, name, 0, balance)])%list,
       total_debits, total_credits + balance)
    else if balance <? 0 then
      if debit_normal account_type then
        ((trial_balance ++ [(account_id, name, 0, Z.abs balance)])%list,
         total_debits, total_credits + Z.abs balance)
      else
        ((trial_balance ++ [(account_id, name, Z.abs balance, 0)])%list,
         total_debits + Z.abs balance, total_credits)
    else st
  else st.

Definition generate_trial_balance (conn : connection)
    (as_of_date : option date) : list trial_row :=
  let '(trial_balance, total_debits, total_credits) :=
    fold_left (trial_step conn as_of_date) (active_accounts (working conn))
      ([], 0, 0) in
  (trial_balance ++ [("TOTAL", "TOTAL", total_debits, total_credits)])%list.

(** ** [get_account_transaction_history] *)

Record history_row := {
  h_id : string;
  h_date : date;
  h_description : string;
  h_reference : option string;
  h_debit : Decimal;
  h_credit : Decimal;
  h_effect : Decimal;
  h_running_balance : Decimal;
  h_entry_description : string
}.

(** [transactions t JOIN transaction_entries te ON t.id = te.transaction_id
     WHERE te.account_id = ?] *)
Definition joined_entries (db : database) (account_id : string)
    : list (transaction_row * entry_row) :=
  flat_map
    (fun te =>
       if (e_account_id te =? account_id)%string then
         match find_transaction db (e_transaction_id te) with
         | Some t => [(t, te)]
         | None => []
         end
       else [])
    (transaction_entries db).

(** [ORDER BY t.date, t.id] *)
Definition by_date_then_id (x y : transaction_row * entry_row) : bool :=
  date_ltb (t_date (fst x)) (t_date (fst y))
  || (date_eqb (t_date (fst x)) (t_date (fst y))
      && String.leb (t_id (fst x)) (t_id (fst y))).

(** The loop that accumulates the running balance. *)
Fixpoint history_loop (account_type : AccountType) (running_balance : Decimal)
    (rows : list (transaction_row * entry_row)) : list history_row :=
  match rows with
  | [] => []
  | (t, te) :: rest =>
      let debit := Decimal_str (e_debit_amount te) in
      let credit := Decimal_str (e_credit_amount te) in
      let effect :=
        if debit_normal account_type then debit - credit else credit - debit in
      let running_balance := running_balance + effect in
      {| h_id := t_id t; h_date := t_date t;
         h_description := t_description t; h_reference := t_reference t;
         h_debit := debit; h_credit := credit; h_effect := effect;
         h_running_balance := running_balance;
         h_entry_description := e_description te |}
      :: history_loop account_type running_balance rest
  end.

(** [limit] is the row count of the LIMIT clause. *)
Definition get_account_transaction_history (conn : connection)
    (account_id : string) (limit : nat) : list history_row :=
  let db := working conn in
  match find_account db account_id with
  | None => []
  | Some account_info =>
      let account_type := a_account_type account_info in
      let transactions :=
        firstn limit (order_by by_date_then_id (joined_entries db account_id)) in
      history_loop account_type 0 transactions
  end.

(** ** [import_ofx_transactions] *)

Context {PS : Parsers}.

(** The two branches on the sign of the amount. *)
Definition import_entries (cash_account_id : string) (amount : Decimal)
    (description : string) : list entry :=
  if 0 <? amount then
    [ (cash_account_id, amount, 0, description);
      ("4300", 0, amount, description) ]
  else
    [ ("5240", Z.abs amount, 0, description);
      (cash_account_id, 0, Z.abs amount, description) ].

(** The body of the loop over the records: the connection afterwards and
    whether [imported_count] was incremented.  A record whose date or amount
    makes Python raise is left to the [except] branch, which goes on to the
    next record. *)
Definition import_record (conn : connection) (cash_account_id : string)
    (trn_data : stmttrn) : connection * bool :=
  match dtposted trn_data with
  | None => (conn, false)
  | Some posted =>
  match strptime_Ymd (substring 0 8 posted) with
  | None => (conn, false)
  | Some trn_date =>
  match trnamt trn_data with
  | None => (conn, false)
  | Some amt =>
  match Decimal_of_string amt with
  | None => (conn, false)
  | Some amount =>
      let description :=
        strip (fstr (name trn_data) ++ " " ++ fstr (memo trn_data)) in
      let transaction_id := "OFX_" ++ fstr (fitid trn_data) in
      if transaction_exists (working conn) transaction_id then (conn, false)
      else
        let entries := import_entries cash_account_id amount description in
        let (conn', r) :=
          create_transaction conn transaction_id trn_date description entries
            (fitid trn_data) in
        (conn', returned r)
  end end end end.

Fixpoint import_loop (conn : connection) (cash_account_id : string)
    (records : list stmttrn) (imported_count : nat) : connection * nat :=
  match records with
  | [] => (conn, imported_count)
  | trn_data :: rest =>
      let (conn', counted) := import_record conn cash_account_id trn_data in
      import_loop conn' cash_account_id rest
        (if counted then S imported_count else imported_count)
  end.

(** [parsed] is what [parse_ofx_file(file_path)] returned, [file_hash] the MD5
    digest of the file and [now] the text of [datetime.now().isoformat()].
    The last INSERT is outside any [try]: its failure leaves the function as
    an exception. *)
Definition import_ofx_transactions (conn : connection)
    (parsed : option ofx_data) (file_hash now : string)
    (cash_account_id : string) : connection * result nat :=
  match parsed with
  | None => (conn, Ok O)
  | Some data =>
      let (conn1, imported_count) :=
        import_loop conn cash_account_id (stmttrns data) O in
      match insert_import (working conn1)
              {| i_id := "IMPORT_" ++ now; i_bank_id := bank_id data;
                 i_account_id := account_id data; i_file_hash := file_hash;
                 i_transactions_imported := imported_count |} with
      | Ok db' => (commit (execute conn1 db'), Ok imported_count)
      | Raise e => (conn1, Raise e)
      end
  end.

(** ** [export_to_ofx] *)

(** [date(t.date) BETWEEN date(?) AND date(?)] *)
Definition date_between (d start_date end_date : date) : bool :=
  date_leb start_date d && date_leb d end_date.

(** The rows of the export query, in the order of its ORDER BY. *)
Definition export_rows (db : database) (account_id : string)
    (start_date end_date : date) : list (transaction_row * entry_row) :=
  order_by by_date_then_id
    (filter (fun r => date_between (t_date (fst r)) start_date end_date)
       (joined_entries db account_id)).

(** The signed amount that the loop writes into [TRNAMT]. *)
Definition export_amount (te : entry_row) : Decimal :=
  let debit := Decimal_str (e_debit_amount te) in
  let credit := Decimal_str (e_credit_amount te) in
  if debit <? credit then credit - debit else - (debit - credit).

(** One turn of the loop over the rows. *)
Definition export_trn (row : transaction_row * entry_row) : exported_trn :=
  let (t, te) := row in
  let amount := export_amount te in
  {| x_trntype := if 0 <? amount then "CREDIT" else "DEBIT";
     x_dtposted := strftime_Ymd (t_date t);
     x_trnamt := amount;
     x_fitid := t_id t;
     x_name := substring 0 32 (t_description t);
     x_memo := t_description t |}.

(** The transaction list of the exported document; the rendering of the
    blocks as text around it is not modelled. *)
Definition export_to_ofx (conn : connection) (account_id : string)
    (start_date end_date : date) : result (list exported_trn) :=
  let db := working conn in
  match find_account db account_id with
  | None => Raise (ValueError_account_not_found account_id)
  | Some _ => Ok (map export_trn (export_rows db account_id start_date end_date))
  end.

(** ** Notions used to state the properties *)

Definition entry_exists (db : database) (id : string) : bool :=
  existsb (fun e => e_id e =? id)%string (transaction_entries db).


(** Nothing is pending on the connection. *)
Definition clean (conn : connection) : Prop := working conn = committed conn.

(** The ledger proper: accounts, transactions and entries. *)
Definition same_ledger (u s : database) : Prop :=
  accounts u = accounts s /\ transactions u = transactions s
  /\ transaction_entries u = transaction_entries s.

(** [db] after the INSERT of one transaction row and of its entry rows. *)
Definition with_posting (db : database) (t : transaction_row)
    (rows : list entry_row) : database :=
  {| accounts := accounts db;
     transactions := (transactions db ++ [t])%list;
     transaction_entries := (transaction_entries db ++ rows)%list;
     ofx_imports := ofx_imports db |}.

(** The row that the entry loop inserts for the line at index [i]. *)
Definition entry_row_of (transaction_id : string) (i : nat) (line : entry)
    : entry_row :=
  let '(account_id, debit, credit, entry_desc) := line in
  {| e_id := entry_id transaction_id i;
     e_transaction_id := transaction_id;
     e_account_id := account_id;
     e_debit_amount := float debit;
     e_credit_amount := float credit;
     e_description := entry_desc |}.

(** The rows that the entry loop inserts for the lines from index [i] on. *)
Fixpoint rows_from (transaction_id : string) (i : nat) (entries : list entry)
    : list entry_row :=
  match entries with
  | [] => []
  | line :: rest =>
      entry_row_of transaction_id i line :: rows_from transaction_id (S i) rest
  end.

(** Debit minus credit of an entry row, as read back from the store. *)
Definition net_debit (te : entry_row) : Decimal :=
  Decimal_str (e_debit_amount te) - Decimal_str (e_credit_amount te).

(** The amounts of the lines come back from the store as they were posted. *)
Definition stored_exactly (entries : list entry) : Prop :=
  forall line, In line entries ->
    Decimal_str (float (entry_debit line)) = entry_debit line
    /\ Decimal_str (float (entry_credit line)) = entry_credit line.

Definition entries_of_transaction (db : database) (transaction_id : string)
    : list entry_row :=
  filter (fun te => (e_transaction_id te =? transaction_id)%string)
    (transaction_entries db).

(** Every entry row belongs to a transaction of the store and carries an id
    made from the id of that transaction. *)
Definition entries_owned (db : database) : Prop :=
  forall te, In te (transaction_entries db) ->
    transaction_exists db (e_transaction_id te) = true
    /\ exists i, e_id te = entry_id (e_transaction_id te) i.

(** The state of the tables that the postings maintain: ids are unique,
    every entry belongs to a transaction of the store, and the entries of
    every transaction balance. *)
Record ledger_ok (db : database) : Prop := {
  ok_account_ids : NoDup (map a_id (accounts db));
  ok_transaction_ids : NoDup (map t_id (transactions db));
  ok_entries_owned : entries_owned db;
  ok_balanced :
    forall t, In t (transactions db) ->
              sum (map net_debit (entries_of_transaction db (t_id t))) = 0
}.

Definition empty_database : database :=
  {| accounts := []; transactions := []; transaction_entries := [];
     ofx_imports := [] |}.

(** The connections that the operations of the engine reach from an empty
    database, by calls whose amounts the store keeps exactly. *)
Inductive reachable : connection -> Prop :=
| reachable_fresh :
    reachable {| committed := empty_database; working := empty_database |}
| reachable_create_account :
    forall conn account_id name account_type parent_id description,
      reachable conn ->
      reachable (fst (create_account conn account_id name account_type
                        parent_id description))
| reachable_create_transaction :
    forall conn transaction_id transaction_date description entries reference,
      reachable conn ->
      stored_exactly entries ->
      reachable (fst (create_transaction conn transaction_id transaction_date
                        description entries reference))
| reachable_import :
    forall conn parsed file_hash now cash_account_id,
      reachable conn ->
      (forall data r amt amount description,
         parsed = Some data -> In r (stmttrns data) ->
         trnamt r = Some amt -> Decimal_of_string amt = Some amount ->
         stored_exactly (import_entries cash_account_id amount description)) ->
      reachable (fst (import_ofx_transactions conn parsed file_hash now
                        cash_account_id)).

(** The total that SQLite computes over a column, read back, is the exact
    sum of the values of the column read back one by one. *)
Definition exact_total (col : list real) : Prop :=
  read_total col = sum (map Decimal_str col).

(** A connection without pending statements whose tables are in order. *)
Definition conn_ok (conn : connection) : Prop :=
  clean conn /\ ledger_ok (working conn).

(** What an account adds to total debits minus total credits. *)
Definition signed_balance (conn : connection) (as_of_date : option date)
    (a : account_row) : Z :=
  if debit_normal (a_account_type a)
  then get_account_balance conn (a_id a) as_of_date
  else - get_account_balance conn (a_id a) as_of_date.




End Engine.

(** ** Re-deriving the two columns from a signed amount *)



(** ** Sample ledgers

    A database seeded by [setup_chart_of_accounts] with a few accounts of the
    standard chart, in the idealised store. *)

Module Sample.

Definition fresh : @connection ExactReal :=
  {| committed := empty_database; working := empty_database |}.

Definition standard_accounts
    : list (string * string * AccountType * option string) :=
  [ ("1110", "Cash and Bank Accounts", ASSET, Some "1100");
    ("3100", "Owner's Equity", EQUITY, Some "3000");
    ("4100", "Sales Revenue", REVENUE, Some "4000");
    ("4300", "Other Income", REVENUE, Some "4000");
    ("5240", "Office Supplies", EXPENSE, Some "5200") ].

(** The loop of [setup_chart_of_accounts]. *)
Definition setup_chart_of_accounts (conn : @connection ExactReal)
    : @connection ExactReal :=
  fold_left
    (fun c '(account_id, name, acc_type, parent_id) =>
       fst (create_account c account_id name acc_type parent_id ""))
    standard_accounts conn.

Definition seeded : @connection ExactReal := setup_chart_of_accounts fresh.

Definition jan15 : date := mkdate 2024 1 15.
Definition jan20 : date := mkdate 2024 1 20.

(** Scenario A of the specification: the initial capital investment. *)
Definition capital : @connection ExactReal :=
  fst (create_transaction seeded "SAMPLE001" jan15 "Initial capital investment"
         [ ("1110", 10000, 0, "Cash deposit");
           ("3100", 0, 10000, "Owner investment") ] None).

(** A balanced posting whose second line names an account that is not in the
    chart. *)
Definition stray : @connection ExactReal :=
  fst (create_transaction seeded "SAMPLE002" jan20 "Deposit"
         [ ("1110", 100, 0, "Cash deposit");
           ("9999", 0, 100, "Unknown source") ] None).


(** Parsers for the samples: eight digits for the date and a whole amount
    with an optional minus sign. *)
Definition strptime_digits (s : string) : option date :=
  match read_nat (substring 0 4 s), read_nat (substring 4 2 s),
        read_nat (substring 6 2 s) with
  | Some y, Some m, Some d => Some (mkdate y m d)
  | _, _, _ => None
  end.

Definition whole_amount (s : string) : option Decimal :=
  match s with
  | String "-" digits => option_map (fun n => - Z.of_nat n) (read_nat digits)
  | _ => option_map Z.of_nat (read_nat s)
  end.

Definition parsers : Parsers :=
  {| strptime_Ymd := strptime_digits; Decimal_of_string := whole_amount |}.

(** Scenario C of the specification: a statement with one payment of 150. *)
Definition payment : stmttrn :=
  {| fitid := Some "F1"; trntype := Some "DEBIT";
     dtposted := Some "20240120120000"; trnamt := Some "-150";
     name := Some "Stationer"; memo := Some "Paper" |}.

Definition statement : ofx_data :=
  {| bank_id := Some "123456789"; account_id := Some "000111";
     stmttrns := [payment] |}.

End Sample.

(** * More of the engine, and the routes that call it

    The seeding of the chart of accounts and the balance sheet of
    [accounting_system.py], and the routes of [accounting_web_ui.py] that
    change the tables: a route is modelled from the parsed form on, by what
    it does to the connection and which message it flashes. *)

From Stdlib Require Import Sorted.

Section Callers.

Context {RM : RealModel}.

(** ** [setup_chart_of_accounts] *)

Definition standard_accounts
    : list (string * string * AccountType * option string) :=
  [ ("1000", "ASSETS", ASSET, None);
    ("1100", "Current Assets", ASSET, Some "1000");
    ("1110", "Cash and Bank Accounts", ASSET, Some "1100");
    ("1120", "Accounts Receivable", ASSET, Some "1100");
    ("1130", "Inventory", ASSET, Some "1100");
    ("1140", "Prepaid Expenses", ASSET, Some "1100");
    ("1200", "Fixed Assets", ASSET, Some "1000");
    ("1210", "Equipment", ASSET, Some "1200");
    ("1220", "Accumulated Depreciation - Equipment", ASSET, Some "1200");
    ("2000", "LIABILITIES", LIABILITY, None);
    ("2100", "Current Liabilities", LIABILITY, Some "2000");
    ("2110", "Accounts Payable", LIABILITY, Some "2100");
    ("2120", "Accrued Expenses", LIABILITY, Some "2100");
    ("2130", "Short-term Debt", LIABILITY, Some "2100");
    ("2200", "Long-term Liabilities", LIABILITY, Some "2000");
    ("2210", "Long-term Debt", LIABILITY, Some "2200");
    ("3000", "EQUITY", EQUITY, None);
    ("3100", "Owner's Equity", EQUITY, Some "3000");
    ("3200", "Retained Earnings", EQUITY, Some "3000");
    ("4000", "REVENUE", REVENUE, None);
    ("4100", "Sales Revenue", REVENUE, Some "4000");
    ("4200", "Service Revenue", REVENUE, Some "4000");
    ("4300", "Other Income", REVENUE, Some "4000");
    ("5000", "EXPENSES", EXPENSE, None);
    ("5100", "Cost of Goods Sold", EXPENSE, Some "5000");
    ("5200", "Operating Expenses", EXPENSE, Some "5000");
    ("5210", "Salaries and Wages", EXPENSE, Some "5200");
    ("5220", "Rent Expense", EXPENSE, Some "5200");
    ("5230", "Utilities Expense", EXPENSE, Some "5200");
    ("5240", "Office Supplies", EXPENSE, Some "5200");
    ("5250", "Depreciation Expense", EXPENSE, Some "5200") ].

(** The loop [for account_id, name, acc_type, parent_id in ...] over a list
    of accounts. *)
Definition create_accounts
    (l : list (string * string * AccountType * option string))
    (conn : connection) : connection :=
  fold_left
    (fun c '(account_id, name, acc_type, parent_id) =>
       fst (create_account c account_id name acc_type parent_id ""))
    l conn.

Definition setup_chart_of_accounts (conn : connection) : connection :=
  create_accounts standard_accounts conn.

(** ** [generate_balance_sheet] *)








(** ** Routes of [accounting_web_ui.py] *)

(** The lines of the form that the routes keep:
    [if account_id and (debit > 0 or credit > 0)]. *)
Definition form_entries (lines : list entry) : list entry :=
  filter
    (fun line : entry =>
       let '(account_id, debit, credit, _) := line in
       negb (account_id =? "")%string && ((0 <? debit) || (0 <? credit)))
    lines.


(** [DELETE FROM transaction_entries WHERE transaction_id = ?] *)
Definition delete_entries_of (db : database) (transaction_id : string)
    : database :=
  {| accounts := accounts db;
     transactions := transactions db;
     transaction_entries :=
       filter (fun te => negb (e_transaction_id te =? transaction_id)%string)
         (transaction_entries db);
     ofx_imports := ofx_imports db |}.



(** [UPDATE transactions SET date = ?, description = ?, reference = ?
     WHERE id = ?] *)
Definition update_transaction_row (db : database) (transaction_id : string)
    (trn_date : date) (description reference : string) : database :=
  {| accounts := accounts db;
     transactions :=
       map (fun t =>
              if (t_id t =? transaction_id)%string
              then {| t_id := t_id t; t_date := trn_date;
                      t_description := description;
                      t_reference := Some reference |}
              else t)
         (transactions db);
     transaction_entries := transaction_entries db;
     ofx_imports := ofx_imports db |}.

(** The entry loop of [edit_transaction]: the database reached and the
    exception that stopped the loop, if one did. *)
Fixpoint insert_entries_pending (transaction_id : string) (i : nat)
    (entries : list entry) (db : database) : database * option exn :=
  match entries with
  | [] => (db, None)
  | line :: rest =>
      match insert_entry db (entry_row_of transaction_id i line) with
      | Ok db' => insert_entries_pending transaction_id (S i) rest db'
      | Raise e => (db, Some e)
      end
  end.

Inductive edit_report :=
| Updated
| Not_balanced
| Error_editing_transaction (e : exn).

(** [edit_transaction], POST.  The handler of an exception flashes the error
    and neither commits nor rolls back: what was executed stays pending on
    the connection. *)
Definition edit_transaction (conn : connection) (transaction_id : string)
    (trn_date : date) (description reference : string) (lines : list entry)
    : connection * edit_report :=
  let entries := form_entries lines in
  let total_debits := sum (map entry_debit entries) in
  let total_credits := sum (map entry_credit entries) in
  if negb (total_debits =? total_credits) then (conn, Not_balanced)
  else
    let db :=
      update_transaction_row
        (delete_entries_of (working conn) transaction_id)
        transaction_id trn_date description reference in
    match insert_entries_pending transaction_id 0 entries db with
    | (db', None) => (commit (execute conn db'), Updated)
    | (db', Some e) => (execute conn db', Error_editing_transaction e)
    end.

(** [UPDATE accounts SET is_active = NOT is_active WHERE id = ?], commit. *)
Definition toggle_account (conn : connection) (account_id : string)
    : connection :=
  let db := working conn in
  commit (execute conn
    {| accounts :=
         map (fun a =>
                if (a_id a =? account_id)%string
                then {| a_id := a_id a; a_name := a_name a;
                        a_account_type := a_account_type a;
                        a_parent_id := a_parent_id a;
                        a_description := a_description a;
                        a_is_active := negb (a_is_active a) |}
                else a)
           (accounts db);
       transactions := transactions db;
       transaction_entries := transaction_entries db;
       ofx_imports := ofx_imports db |}).


(** ** Notions used to state the further properties *)


(** [r1] may stand before [r2] under [ORDER BY t.date ASC, t.id ASC]. *)
Definition history_leb (r1 r2 : history_row) : bool :=
  date_ltb (h_date r1) (h_date r2)
  || (date_eqb (h_date r1) (h_date r2) && String.leb (h_id r1) (h_id r2)).

Definition trial_id (r : trial_row) : string := fst (fst (fst r)).
Definition trial_name (r : trial_row) : string := snd (fst (fst r)).
Definition trial_debit (r : trial_row) : Decimal := snd (fst r).
Definition trial_credit (r : trial_row) : Decimal := snd r.


(** What the loop of the trial balance keeps true of a row that it has
    written. *)
Definition trial_row_ok (conn : connection) (as_of_date : option date)
    (r : trial_row) : Prop :=
  exists a,
    In a (accounts (working conn)) /\ a_is_active a = true
    /\ trial_id r = a_id a /\ trial_name r = a_name a
    /\ get_account_balance conn (a_id a) as_of_date <> 0
    /\ 0 <= trial_debit r /\ 0 <= trial_credit r
    /\ (trial_debit r = 0 \/ trial_credit r = 0)
    /\ trial_debit r + trial_credit r
       = Z.abs (get_account_balance conn (a_id a) as_of_date)
    /\ trial_debit r - trial_credit r = signed_balance conn as_of_date a.


(** The database that a successful [edit_transaction] leaves. *)
Definition edited (db : database) (transaction_id : string) (trn_date : date)
    (description reference : string) (entries : list entry) : database :=
  {| accounts := accounts db;
     transactions :=
       transactions
         (update_transaction_row db transaction_id trn_date description
            reference);
     transaction_entries :=
       (filter (fun te => negb (e_transaction_id te =? transaction_id)%string)
          (transaction_entries db)
        ++ rows_from transaction_id 0 entries)%list;
     ofx_imports := ofx_imports db |}.


End Callers.

(** * Properties *)

(** ** Sums and sorted lists *)

Lemma fold_add_shift : forall (l : list Z) (a : Z),
  fold_left Z.add l a = a + fold_left Z.add l 0.
Proof.
  induction l as [|x l IH]; intros a; cbn.
  - lia.
  - rewrite (IH (a + x)), (IH x). lia.
Qed.

Lemma sum_nil : sum [] = 0.
Proof. reflexivity. Qed.

Lemma sum_cons : forall x l, sum (x :: l) = x + sum l.
Proof. intros x l. unfold sum. cbn. apply fold_add_shift. Qed.

Lemma sum_app : forall l1 l2, sum (l1 ++ l2) = sum l1 + sum l2.
Proof.
  induction l1 as [|x l1 IH]; intros l2.
  - rewrite sum_nil. cbn [app]. lia.
  - cbn [app]. rewrite !sum_cons, IH. lia.
Qed.





Lemma insert_sorted_permutation :
  forall (A : Type) (leb : A -> A -> bool) (x : A) (l : list A),
    Permutation (insert_sorted leb x l) (x :: l).
Proof.
  induction l as [|y l IH]; cbn.
  - apply Permutation_refl.
  - destruct (leb x y).
    + apply Permutation_refl.
    + rewrite IH. apply perm_swap.
Qed.

Lemma order_by_permutation :
  forall (A : Type) (leb : A -> A -> bool) (l : list A),
    Permutation (order_by leb l) l.
Proof.
  induction l as [|x l IH]; cbn.
  - apply perm_nil.
  - rewrite insert_sorted_permutation. now apply perm_skip.
Qed.

Lemma order_by_In :
  forall (A : Type) (leb : A -> A -> bool) (l : list A) (x : A),
    In x (order_by leb l) <-> In x l.
Proof.
  intros A leb l x. split; apply Permutation_in.
  - apply order_by_permutation.
  - apply Permutation_sym, order_by_permutation.
Qed.

(** ** Formatted identifiers *)

Lemma read_nat_str_nat n : read_nat (str_nat n) = Some n.
Proof.
  unfold read_nat, str_nat. rewrite DecimalString.NilEmpty.usu. cbn.
  now rewrite DecimalNat.Unsigned.of_to.
Qed.




Lemma append_inv_head p s1 s2 : p ++ s1 = p ++ s2 -> s1 = s2.
Proof. induction p; cbn; intros H; [assumption|]. inversion H. auto. Qed.

Lemma rpartition_digits (d : Decimal.uint) :
  rpartition_underscore (DecimalString.NilEmpty.string_of_uint d) = None.
Proof.
  induction d; cbn [DecimalString.NilEmpty.string_of_uint rpartition_underscore];
    rewrite ?IHd; reflexivity.
Qed.

Lemma rpartition_append (before after : string) :
  rpartition_underscore after = None ->
  rpartition_underscore (before ++ String "_" after) = Some (before, after).
Proof.
  intros Hafter. induction before as [|c before IH].
  - cbn. now rewrite Hafter.
  - cbn [append rpartition_underscore]. now rewrite IH.
Qed.

Lemma entry_id_inj tid1 i1 tid2 i2 :
  entry_id tid1 i1 = entry_id tid2 i2 -> tid1 = tid2.
Proof.
  unfold entry_id, str_nat. intros H.
  apply (f_equal rpartition_underscore) in H.
  change (fun s : string => "_" ++ s) with (String "_") in H.
  change ("_" ++ ?x) with (String "_" x) in H.
  rewrite !rpartition_append in H by apply rpartition_digits. congruence.
Qed.







Lemma filter_andb : forall (A : Type) (f g : A -> bool) (l : list A),
  filter (fun x => f x && g x) l = filter f (filter g l).
Proof.
  induction l as [|x l IH]; cbn [filter]; [reflexivity|].
  destruct (g x); cbn [filter]; rewrite ?andb_true_r, ?andb_false_r;
    [destruct (f x)|]; now rewrite IH.
Qed.

Section Properties.

Context {RM : RealModel} {PS : Parsers}.

Lemma exact_total_nil : exact_total [].
Proof. reflexivity. Qed.

(** ** Posting *)


(** ** Balances *)

(** C5, as the code has it. For an account id without a row in [accounts],
    [get_account_balance] returns zero, for every date. *)
Theorem get_account_balance_unknown_account_zero :
  forall (conn : connection) account_id as_of_date,
    find_account (working conn) account_id = None ->
    get_account_balance conn account_id as_of_date = 0.
Proof.
  intros conn id as_of Hnone. unfold get_account_balance.
  now rewrite Hnone.
Qed.

(** C10. For an account id without a row in [accounts],
    [get_account_transaction_history] returns the empty list, whatever the
    entries table holds. *)
Theorem history_unknown_account_empty :
  forall (conn : connection) account_id limit,
    find_account (working conn) account_id = None ->
    get_account_transaction_history conn account_id limit = [].
Proof.
  intros conn id limit Hnone. unfold get_account_transaction_history.
  now rewrite Hnone.
Qed.





(** ** Export *)

Lemma joined_entries_In :
  forall (db : database) account_id t te,
    In (t, te) (joined_entries db account_id) <->
    In te (transaction_entries db)
    /\ e_account_id te = account_id
    /\ find_transaction db (e_transaction_id te) = Some t.
Proof.
  intros db id t te. unfold joined_entries. rewrite in_flat_map. split.
  - intros (te' & Hin & Hrow).
    destruct (String.eqb_spec (e_account_id te') id) as [Hid|]; [|easy].
    destruct (find_transaction db (e_transaction_id te')) as [t'|] eqn:Ht;
      [|easy].
    destruct Hrow as [Hrow|[]]. inversion Hrow; subst. auto.
  - intros (Hin & Hid & Ht). exists te. split; [exact Hin|].
    rewrite <- String.eqb_eq in Hid. rewrite Hid, Ht. now left.
Qed.



(** ** Transaction identifiers *)

Lemma transaction_exists_In (db : database) id :
  transaction_exists db id = true <-> In id (map t_id (transactions db)).
Proof.
  unfold transaction_exists. rewrite existsb_exists, in_map_iff.
  split; intros (t & H1 & H2); exists t.
  - apply String.eqb_eq in H2. auto.
  - split; [assumption|]. now apply String.eqb_eq.
Qed.




(** ** Import *)




Lemma existsb_snoc (A : Type) (f : A -> bool) l x :
  existsb f (l ++ [x])%list = existsb f l || f x.
Proof. rewrite existsb_app. cbn. now rewrite orb_false_r. Qed.

Lemma insert_entry_Ok db row db' :
  insert_entry db row = Ok db' ->
  entry_exists db (e_id row) = false
  /\ accounts db' = accounts db /\ transactions db' = transactions db
  /\ transaction_entries db' = (transaction_entries db ++ [row])%list
  /\ ofx_imports db' = ofx_imports db.
Proof.
  unfold insert_entry, entry_exists.
  destruct (existsb _ _); [discriminate|]. intros [= <-]. cbn. auto.
Qed.





Lemma clean_rollback conn : clean conn -> rollback conn = conn.
Proof. destruct conn as [c w]. unfold clean, rollback. cbn. now intros ->. Qed.






Lemma insert_import_same_ledger (db : database) row db' :
  insert_import db row = Ok db' -> same_ledger db' db.
Proof.
  unfold insert_import. destruct (existsb _ _); [discriminate|].
  intros [= <-]. repeat split.
Qed.




Lemma sum_pair a b : sum [a; b] = a + b.
Proof. unfold sum. cbn. lia. Qed.







(** ** The invariant of the postings *)

Lemma insert_entries_rows tid :
  forall entries i (db db' : database),
    insert_entries tid i entries db = Ok db' ->
    db' = {| accounts := accounts db; transactions := transactions db;
             transaction_entries :=
               (transaction_entries db ++ rows_from tid i entries)%list;
             ofx_imports := ofx_imports db |}.
Proof.
  induction entries as [|[[[acc debit] credit] desc] rest IH]; intros i db db'.
  - cbn. intros [= <-]. rewrite app_nil_r. now destruct db.
  - cbn [insert_entries bind].
    destruct (insert_entry db _) as [db1|e] eqn:H1; [|discriminate].
    intros Hrest. apply IH in Hrest. apply insert_entry_Ok in H1.
    destruct H1 as (_ & Ha & Ht & He & Ho).
    rewrite Hrest, Ha, Ht, He, Ho, <- app_assoc. reflexivity.
Qed.

Lemma create_transaction_body_shape (db : database) tid d desc es ref db' :
  create_transaction_body db tid d desc es ref = Ok db' ->
  db' = with_posting db
          {| t_id := tid; t_date := d; t_description := desc;
             t_reference := ref |} (rows_from tid 0 es)
  /\ transaction_exists db tid = false
  /\ sum (map entry_debit es) = sum (map entry_credit es).
Proof.
  unfold create_transaction_body.
  destruct (Z.eqb_spec (sum (map entry_debit es)) (sum (map entry_credit es)))
    as [Hbal|]; [|discriminate].
  cbn [negb]. unfold insert_transaction. cbn [t_id].
  destruct (transaction_exists db tid); [discriminate|]. cbn [bind].
  intros H. apply insert_entries_rows in H. subst db'. auto.
Qed.

Lemma rows_from_transaction_id tid :
  forall es i te, In te (rows_from tid i es) -> e_transaction_id te = tid.
Proof.
  induction es as [|[[[acc debit] credit] desc] rest IH]; intros i te; cbn.
  - intros [].
  - intros [<- | Hin]; [reflexivity | eauto].
Qed.

Lemma rows_from_entry_id tid :
  forall es i te,
    In te (rows_from tid i es) ->
    exists j, e_id te = entry_id (e_transaction_id te) j.
Proof.
  induction es as [|[[[acc debit] credit] desc] rest IH]; intros i te; cbn.
  - intros [].
  - intros [<- | Hin]; [now exists i | eauto].
Qed.

Lemma rows_from_net tid :
  forall es i,
    stored_exactly es ->
    sum (map net_debit (rows_from tid i es))
    = sum (map entry_debit es) - sum (map entry_credit es).
Proof.
  induction es as [|line rest IH]; intros i Hex; cbn [rows_from map].
  - reflexivity.
  - rewrite !sum_cons, IH by (intros l Hl; apply Hex; now right).
    destruct (Hex line (or_introl eq_refl)) as [Hd Hc].
    destruct line as [[[acc debit] credit] desc].
    unfold net_debit, entry_row_of. cbn [e_debit_amount e_credit_amount].
    unfold entry_debit, entry_credit in *. cbn [fst snd] in *.
    rewrite Hd, Hc. lia.
Qed.

Lemma filter_none : forall (A : Type) (f : A -> bool) (l : list A),
  (forall x, In x l -> f x = false) -> filter f l = [].
Proof.
  induction l as [|x l IH]; intros H; cbn; [reflexivity|].
  rewrite (H x (or_introl eq_refl)). apply IH. intros y Hy. apply H. now right.
Qed.

Lemma filter_all : forall (A : Type) (f : A -> bool) (l : list A),
  (forall x, In x l -> f x = true) -> filter f l = l.
Proof.
  induction l as [|x l IH]; intros H; cbn; [reflexivity|].
  rewrite (H x (or_introl eq_refl)). f_equal. apply IH. intros y Hy.
  apply H. now right.
Qed.

Lemma ledger_ok_with_posting (db : database) tid d desc ref es :
  ledger_ok db ->
  transaction_exists db tid = false ->
  stored_exactly es ->
  sum (map entry_debit es) = sum (map entry_credit es) ->
  ledger_ok (with_posting db
               {| t_id := tid; t_date := d; t_description := desc;
                  t_reference := ref |} (rows_from tid 0 es)).
Proof.
  intros [Ha Ht Hown Hbal] Hfree Hex Hsum.
  assert (Hnotin : ~ In tid (map t_id (transactions db))).
  { rewrite <- transaction_exists_In. congruence. }
  assert (Hold : forall te, In te (transaction_entries db) ->
                            (e_transaction_id te =? tid)%string = false).
  { intros te Hte. apply String.eqb_neq. intros Heq. apply Hown in Hte.
    destruct Hte as [Hte _]. rewrite Heq in Hte. congruence. }
  unfold with_posting.
  constructor; cbn [accounts transactions transaction_entries].
  - exact Ha.
  - rewrite map_app. cbn [map t_id].
    apply Permutation_NoDup with (l := tid :: map t_id (transactions db)).
    + apply Permutation_cons_append.
    + now constructor.
  - intros te Hte. unfold transaction_exists.
    cbn [transactions transaction_entries] in *.
    rewrite existsb_snoc. cbn [t_id]. apply in_app_or in Hte.
    destruct Hte as [Hte | Hte].
    + apply Hown in Hte. destruct Hte as [Hte Hid].
      unfold transaction_exists in Hte. now rewrite Hte.
    + split; [|now apply rows_from_entry_id in Hte].
      apply rows_from_transaction_id in Hte. rewrite Hte, String.eqb_refl.
      apply orb_true_r.
  - intros t Hin. unfold entries_of_transaction.
    cbn [transaction_entries]. rewrite filter_app, map_app, sum_app.
    apply in_app_or in Hin. destruct Hin as [Hin | [<- | []]].
    + rewrite (filter_none _ _ (rows_from tid 0 es)).
      * cbn [map]. rewrite sum_nil, Z.add_0_r. apply Hbal. exact Hin.
      * intros te Hte. apply rows_from_transaction_id in Hte. rewrite Hte.
        apply String.eqb_neq. intros ->. apply Hnotin. now apply in_map.
    + cbn [t_id]. rewrite (filter_none _ _ (transaction_entries db)) by exact Hold.
      rewrite filter_all.
      * cbn [map]. rewrite sum_nil, rows_from_net by exact Hex. lia.
      * intros te Hte. apply rows_from_transaction_id in Hte. rewrite Hte.
        apply String.eqb_refl.
Qed.

Lemma ledger_ok_same_ledger (u s : database) :
  same_ledger u s -> ledger_ok s -> ledger_ok u.
Proof.
  intros (Ha & Ht & He) [H1 H2 H3 H4].
  constructor;
    unfold entries_owned, transaction_exists, entries_of_transaction in *;
    rewrite ?Ha, ?Ht, ?He; assumption.
Qed.


Lemma find_account_None_not_In (db : database) id :
  find_account db id = None -> ~ In id (map a_id (accounts db)).
Proof.
  unfold find_account. intros Hnone Hin. apply in_map_iff in Hin.
  destruct Hin as (a & Hid & Hin).
  apply (find_none _ _ Hnone) in Hin. rewrite Hid, String.eqb_refl in Hin.
  discriminate.
Qed.

Lemma create_account_ok (conn : connection) id name ty parent desc :
  conn_ok conn -> conn_ok (fst (create_account conn id name ty parent desc)).
Proof.
  intros [Hclean Hok]. unfold create_account.
  destruct (find_account (working conn) id) eqn:Hfind; cbn [fst].
  - split; [reflexivity | exact Hok].
  - split; [reflexivity|]. cbn [working commit execute].
    destruct Hok as [H1 H2 H3 H4]. constructor; cbn [accounts]; trivial.
    rewrite map_app. cbn [map a_id].
    apply Permutation_NoDup
      with (l := id :: map a_id (accounts (working conn))).
    + apply Permutation_cons_append.
    + constructor; [now apply find_account_None_not_In | exact H1].
Qed.

Lemma create_transaction_ok (conn : connection) tid d desc es ref :
  conn_ok conn -> stored_exactly es ->
  conn_ok (fst (create_transaction conn tid d desc es ref)).
Proof.
  intros [Hclean Hok] Hex. unfold create_transaction.
  destruct (create_transaction_body _ _ _ _ _ _) as [db'|e] eqn:Hbody;
    cbn [fst].
  - apply create_transaction_body_shape in Hbody.
    destruct Hbody as (-> & Hfree & Hsum). split; [reflexivity|].
    cbn [working commit execute]. now apply ledger_ok_with_posting.
  - rewrite (clean_rollback _ Hclean). now split.
Qed.

Lemma import_record_ok (conn : connection) cash r :
  conn_ok conn ->
  (forall amt amount description,
     trnamt r = Some amt -> Decimal_of_string amt = Some amount ->
     stored_exactly (import_entries cash amount description)) ->
  conn_ok (fst (import_record conn cash r)).
Proof.
  intros Hok Hex. unfold import_record.
  destruct (dtposted r) as [posted|]; [|exact Hok].
  destruct (strptime_Ymd _) as [trn_date|]; [|exact Hok].
  destruct (trnamt r) as [amt|]; [|exact Hok].
  destruct (Decimal_of_string amt) as [amount|] eqn:Hamt; [|exact Hok].
  cbv zeta. destruct (transaction_exists _ _); [exact Hok|].
  destruct (create_transaction _ _ _ _ _ _) as [c1 r1] eqn:Hct. cbn [fst].
  change c1 with (fst (c1, r1)). rewrite <- Hct.
  apply create_transaction_ok; [exact Hok|]. now apply (Hex amt).
Qed.

Lemma import_loop_ok cash :
  forall records (conn : connection) n,
    conn_ok conn ->
    (forall r amt amount description,
       In r records ->
       trnamt r = Some amt -> Decimal_of_string amt = Some amount ->
       stored_exactly (import_entries cash amount description)) ->
    conn_ok (fst (import_loop conn cash records n)).
Proof.
  induction records as [|r rest IH]; intros conn n Hok Hex; cbn [import_loop].
  - exact Hok.
  - destruct (import_record conn cash r) as [c1 b] eqn:Hrec.
    apply IH.
    + change c1 with (fst (c1, b)). rewrite <- Hrec.
      apply import_record_ok; [exact Hok|].
      intros amt amount description. apply Hex. now left.
    + intros r0 amt amount description Hin. apply Hex. now right.
Qed.

Lemma import_ofx_transactions_ok (conn : connection) parsed h now cash :
  conn_ok conn ->
  (forall data r amt amount description,
     parsed = Some data -> In r (stmttrns data) ->
     trnamt r = Some amt -> Decimal_of_string amt = Some amount ->
     stored_exactly (import_entries cash amount description)) ->
  conn_ok (fst (import_ofx_transactions conn parsed h now cash)).
Proof.
  intros Hok Hex. unfold import_ofx_transactions.
  destruct parsed as [data|]; [|exact Hok].
  pose proof (import_loop_ok cash (stmttrns data) conn 0%nat Hok) as Hloop.
  destruct (import_loop conn cash (stmttrns data) 0) as [c1 n]. cbn [fst] in Hloop.
  assert (Hc1 : conn_ok c1).
  { apply Hloop. intros r amt amount description. now apply Hex. }
  destruct (insert_import (working c1) _) as [db'|e] eqn:Hins; cbn [fst].
  - split; [reflexivity|]. cbn [working commit execute].
    apply (ledger_ok_same_ledger _ (working c1));
      [now apply insert_import_same_ledger in Hins | apply Hc1].
  - exact Hc1.
Qed.

Lemma reachable_ok : forall conn : connection, reachable conn -> conn_ok conn.
Proof.
  induction 1.
  - split; [reflexivity|].
    constructor; cbn; [constructor | constructor | intros ? [] | intros ? []].
  - now apply create_account_ok.
  - now apply create_transaction_ok.
  - now apply import_ofx_transactions_ok.
Qed.









Lemma active_accounts_In (db : database) a :
  In a (active_accounts db) <-> In a (accounts db) /\ a_is_active a = true.
Proof. unfold active_accounts. now rewrite order_by_In, filter_In. Qed.



End Properties.

(** * The scenarios of the specification on the sample ledgers *)

(** Scenario A: both accounts show 10000, in opposite columns of the trial
    balance, whose totals are equal. *)
Example scenario_A_balances :
  get_account_balance Sample.capital "1110" None = 10000
  /\ get_account_balance Sample.capital "3100" None = 10000.
Proof. split; reflexivity. Qed.

Example scenario_A_trial_balance :
  generate_trial_balance Sample.capital None
  = [ ("1110", "Cash and Bank Accounts", 10000, 0);
      ("3100", "Owner's Equity", 0, 10000);
      ("TOTAL", "TOTAL", 10000, 10000) ].
Proof. reflexivity. Qed.

Example scenario_A_next_id :
  generate_transaction_id Sample.capital Sample.jan15 10000
  = Some "TXN-20240115-002".
Proof. reflexivity. Qed.

Example scenario_A_history :
  map h_running_balance
    (get_account_transaction_history Sample.capital "1110" 100)
  = [10000].
Proof. reflexivity. Qed.

Example strip_blanks : strip "  Stationer Paper " = "Stationer Paper".
Proof. reflexivity. Qed.

(** Neighbouring integers above 2^53 that binary64 does tell apart. *)
Example float64_distinct :
  float64 9007199254740994 <> float64 9007199254740992.
Proof. vm_compute. discriminate. Qed.

(** * The properties at concrete inputs *)


(** C5, refuted as stated: the balance of an account that does not exist is
    the balance of an existing account without entries, so the caller cannot
    tell the two apart. *)
Lemma unknown_account_not_distinguishable :
  ~ (forall (conn : @connection ExactReal) unknown known,
       find_account (working conn) unknown = None ->
       find_account (working conn) known <> None ->
       get_account_balance conn unknown None
       <> get_account_balance conn known None).
Proof.
  intros H.
  apply (H Sample.seeded "9999" "4100"); vm_compute; congruence.
Qed.

Lemma get_account_balance_unknown_account_zero_witness :
  find_account (working Sample.capital) "9999" = None
  /\ get_account_balance Sample.capital "9999" (Some Sample.jan20) = 0.
Proof.
  split.
  - reflexivity.
  - apply get_account_balance_unknown_account_zero. reflexivity.
Defined.

Lemma history_unknown_account_empty_witness :
  find_account (working Sample.stray) "9999" = None
  /\ existsb (fun te => e_account_id te =? "9999")%string
       (transaction_entries (working Sample.stray)) = true
  /\ get_account_transaction_history Sample.stray "9999" 100 = [].
Proof.
  split; [reflexivity|]. split; [reflexivity|].
  apply history_unknown_account_empty. reflexivity.
Defined.

(** ** The sample ledgers are reachable *)

Lemma exact_real_stored_exactly :
  forall entries : list entry, @stored_exactly ExactReal entries.
Proof. intros entries line _. split; reflexivity. Qed.

Lemma seeded_reachable : @reachable ExactReal Sample.parsers Sample.seeded.
Proof.
  unfold Sample.seeded, Sample.setup_chart_of_accounts.
  cbn [fold_left Sample.standard_accounts].
  repeat apply reachable_create_account. apply reachable_fresh.
Qed.

Lemma capital_reachable : @reachable ExactReal Sample.parsers Sample.capital.
Proof.
  apply reachable_create_transaction;
    [apply seeded_reachable | apply exact_real_stored_exactly].
Qed.









(** ** Amounts in binary64 *)

(** C2, where the code departs from it. [create_transaction] binds
    [float(debit)] and [float(credit)] to REAL columns, and binary64 has one
    value for 9007199254740993 and 9007199254740992: posting the one leaves
    the connection that posting the other leaves, whatever SQLite's sum and
    the conversion back are, so no reading of the store returns both amounts
    as they were posted. *)
Theorem float_storage_merges_amounts :
  forall sum64 decimal_str64
         (conn : @connection (Binary64 sum64 decimal_str64))
         transaction_id transaction_date description reference,
    let post amount :=
      create_transaction conn transaction_id transaction_date description
        [ ("1110", amount, 0, "Deposit"); ("4300", 0, amount, "Deposit") ]
        reference in
    float64 9007199254740993 = float64 9007199254740992
    /\ post 9007199254740993 = post 9007199254740992
    /\ forall read : @connection (Binary64 sum64 decimal_str64) -> Z,
         ~ (read (fst (post 9007199254740993)) = 9007199254740993
            /\ read (fst (post 9007199254740992)) = 9007199254740992).
Proof.
  intros sum64 dec64 conn tid d desc ref post.
  assert (Hf : float64 9007199254740993 = float64 9007199254740992)
    by (vm_compute; reflexivity).
  assert (Hpost : post 9007199254740993 = post 9007199254740992).
  { unfold post, create_transaction, create_transaction_body.
    cbn [map]. unfold entry_debit, entry_credit. cbn [fst snd].
    rewrite !sum_pair, !Z.add_0_r, !Z.add_0_l, !Z.eqb_refl. cbn [negb].
    destruct (insert_transaction _ _) as [db|e]; [|reflexivity].
    cbn [bind insert_entries]. cbn [float Binary64]. rewrite Hf.
    reflexivity. }
  split; [exact Hf|]. split; [exact Hpost|].
  intros read [H1 H2]. rewrite Hpost, H2 in H1. discriminate H1.
Qed.

(** * Further properties *)

Section MoreProperties.

Context {RM : RealModel} {PS : Parsers}.

(** ** Accounts *)

Lemma find_app_None (A : Type) (f : A -> bool) (l1 l2 : list A) :
  find f l1 = None -> find f (l1 ++ l2) = find f l2.
Proof.
  induction l1 as [|x l1 IH]; cbn; [reflexivity|].
  destruct (f x); [discriminate | exact IH].
Qed.

Lemma find_app_Some (A : Type) (f : A -> bool) (l1 l2 : list A) (x : A) :
  find f l1 = Some x -> find f (l1 ++ l2) = Some x.
Proof.
  induction l1 as [|y l1 IH]; cbn; [discriminate|].
  destruct (f y); [trivial | exact IH].
Qed.

Lemma create_account_effect (conn : connection) id name ty parent desc :
  let row := {| a_id := id; a_name := name; a_account_type := ty;
                a_parent_id := parent; a_description := desc;
                a_is_active := true |} in
  (find_account (working conn) id <> None
   /\ create_account conn id name ty parent desc = (commit conn, false))
  \/ (find_account (working conn) id = None
      /\ create_account conn id name ty parent desc
         = (commit (execute conn
              {| accounts := (accounts (working conn) ++ [row])%list;
                 transactions := transactions (working conn);
                 transaction_entries := transaction_entries (working conn);
                 ofx_imports := ofx_imports (working conn) |}), true)).
Proof.
  intros row. unfold create_account.
  destruct (find_account (working conn) id) eqn:Hf.
  - left. split; [discriminate | reflexivity].
  - right. split; reflexivity.
Qed.

(** X1. [create_account] reports [True] exactly for an id that no account
    has.  It never changes an account that exists: every lookup that found
    a row before finds the same row afterwards.  A created account is found
    under its id, active and with the name and type given; transactions and
    entries are untouched and nothing is left pending. *)
Theorem create_account_keeps_existing :
  forall (conn : connection) account_id name account_type parent_id
         description,
    let result :=
      create_account conn account_id name account_type parent_id description in
    (snd result = true <-> find_account (working conn) account_id = None)
    /\ (forall id a, find_account (working conn) id = Some a ->
                     find_account (working (fst result)) id = Some a)
    /\ (snd result = true ->
        find_account (working (fst result)) account_id
        = Some {| a_id := account_id; a_name := name;
                  a_account_type := account_type; a_parent_id := parent_id;
                  a_description := description; a_is_active := true |})
    /\ transactions (working (fst result)) = transactions (working conn)
    /\ transaction_entries (working (fst result))
       = transaction_entries (working conn)
    /\ clean (fst result).
Proof.
  intros conn id name ty parent desc result.
  destruct (create_account_effect conn id name ty parent desc)
    as [[Hsome Heq] | [Hnone Heq]]; unfold result; rewrite Heq;
    cbn [fst snd working commit execute accounts transactions
         transaction_entries].
  - split; [split; [discriminate | contradiction]|].
    split; [trivial|]. split; [discriminate|]. repeat split.
  - split; [split; trivial|]. split.
    + intros id' a Ha. unfold find_account in *. cbn [accounts].
      now apply find_app_Some.
    + split; [|repeat split]. intros _. unfold find_account in *.
      cbn [accounts]. rewrite find_app_None by exact Hnone. cbn.
      now rewrite String.eqb_refl.
Qed.

Lemma create_account_clean (conn : connection) id name ty parent desc :
  clean (fst (create_account conn id name ty parent desc)).
Proof.
  destruct (create_account_effect conn id name ty parent desc)
    as [[_ ->] | [_ ->]]; reflexivity.
Qed.

Lemma create_account_found (conn : connection) id name ty parent desc :
  find_account (working (fst (create_account conn id name ty parent desc))) id
  <> None.
Proof.
  destruct (create_account_effect conn id name ty parent desc)
    as [[Hsome ->] | [Hnone ->]]; cbn [fst working commit execute].
  - exact Hsome.
  - unfold find_account in *. cbn [accounts].
    rewrite find_app_None by exact Hnone. cbn. rewrite String.eqb_refl.
    discriminate.
Qed.

Lemma create_account_monotone (conn : connection) id name ty parent desc id' a :
  find_account (working conn) id' = Some a ->
  find_account (working (fst (create_account conn id name ty parent desc))) id'
  = Some a.
Proof.
  intros Ha.
  destruct (create_account_effect conn id name ty parent desc)
    as [[_ ->] | [_ ->]]; cbn [fst working commit execute]; [exact Ha|].
  unfold find_account in *. cbn [accounts]. now apply find_app_Some.
Qed.

Lemma create_account_ledger (conn : connection) id name ty parent desc :
  transactions (working (fst (create_account conn id name ty parent desc)))
  = transactions (working conn)
  /\ transaction_entries
       (working (fst (create_account conn id name ty parent desc)))
     = transaction_entries (working conn).
Proof.
  destruct (create_account_effect conn id name ty parent desc)
    as [[_ ->] | [_ ->]]; split; reflexivity.
Qed.

Lemma clean_commit (conn : connection) : clean conn -> commit conn = conn.
Proof. destruct conn as [c w]. unfold clean, commit. cbn. now intros ->. Qed.

Lemma create_accounts_monotone :
  forall l (conn : connection) id a,
    find_account (working conn) id = Some a ->
    find_account (working (create_accounts l conn)) id = Some a.
Proof.
  induction l as [|[[[id0 name] ty] parent] l IH]; intros conn id a Ha.
  - exact Ha.
  - cbn [create_accounts fold_left]. apply IH. now apply create_account_monotone.
Qed.

Lemma create_accounts_ledger :
  forall l (conn : connection),
    transactions (working (create_accounts l conn))
    = transactions (working conn)
    /\ transaction_entries (working (create_accounts l conn))
       = transaction_entries (working conn).
Proof.
  induction l as [|[[[id0 name] ty] parent] l IH]; intros conn.
  - split; reflexivity.
  - cbn [create_accounts fold_left].
    destruct (IH (fst (create_account conn id0 name ty parent ""))) as [H1 H2].
    destruct (create_account_ledger conn id0 name ty parent "") as [H3 H4].
    unfold create_accounts in *. split; congruence.
Qed.

Lemma create_accounts_found :
  forall l (conn : connection) x,
    In x l ->
    find_account (working (create_accounts l conn)) (fst (fst (fst x)))
    <> None.
Proof.
  induction l as [|[[[id0 name] ty] parent] l IH]; intros conn x Hin;
    [destruct Hin|].
  cbn [create_accounts fold_left]. destruct Hin as [<- | Hin].
  - cbn [fst].
    destruct (find_account
                (working (fst (create_account conn id0 name ty parent "")))
                id0) as [a|] eqn:Hf.
    + fold (create_accounts l (fst (create_account conn id0 name ty parent ""))).
      rewrite (create_accounts_monotone l _ id0 a Hf). discriminate.
    + exfalso. now apply (create_account_found conn id0 name ty parent "").
  - now apply IH.
Qed.

Lemma create_accounts_clean :
  forall l (conn : connection), clean conn -> clean (create_accounts l conn).
Proof.
  induction l as [|[[[id0 name] ty] parent] l IH]; intros conn Hc.
  - exact Hc.
  - cbn [create_accounts fold_left]. apply IH, create_account_clean.
Qed.

Lemma create_accounts_clean_nonempty :
  forall l (conn : connection), l <> [] -> clean (create_accounts l conn).
Proof.
  intros [|[[[id0 name] ty] parent] l] conn Hne; [contradiction|].
  cbn [create_accounts fold_left].
  apply (create_accounts_clean l), create_account_clean.
Qed.

(** Creating accounts that all exist on a connection without pending
    statements changes nothing. *)
Lemma create_accounts_all_found :
  forall l (conn : connection),
    clean conn ->
    (forall x, In x l ->
               find_account (working conn) (fst (fst (fst x))) <> None) ->
    create_accounts l conn = conn.
Proof.
  induction l as [|[[[id0 name] ty] parent] l IH]; intros conn Hc Hall.
  - reflexivity.
  - cbn [create_accounts fold_left].
    destruct (create_account_effect conn id0 name ty parent "")
      as [[_ Heq] | [Hnone _]].
    + rewrite Heq. cbn [fst]. rewrite (clean_commit _ Hc).
      apply IH; [exact Hc|]. intros x Hx. apply Hall. now right.
    + exfalso. apply (Hall (id0, name, ty, parent) (or_introl eq_refl)).
      exact Hnone.
Qed.

(** X2. Seeding the chart of accounts again changes nothing: the result of
    [setup_chart_of_accounts] is a fixed point of it, whatever the
    connection held before the first seeding. *)
Theorem setup_chart_of_accounts_idempotent :
  forall conn : connection,
    setup_chart_of_accounts (setup_chart_of_accounts conn)
    = setup_chart_of_accounts conn.
Proof.
  intros conn. unfold setup_chart_of_accounts.
  apply create_accounts_all_found.
  - apply create_accounts_clean_nonempty. discriminate.
  - intros x Hx. now apply create_accounts_found.
Qed.

(** X3. [setup_chart_of_accounts] leaves every account that exists as it is,
    also one that carries an id of the standard chart, touches neither
    transactions nor entries, and afterwards every id of the standard chart
    is found. *)
Theorem setup_chart_of_accounts_keeps_existing :
  forall conn : connection,
    (forall id a, find_account (working conn) id = Some a ->
                  find_account (working (setup_chart_of_accounts conn)) id
                  = Some a)
    /\ (forall account_id name account_type parent_id,
          In (account_id, name, account_type, parent_id) standard_accounts ->
          find_account (working (setup_chart_of_accounts conn)) account_id
          <> None)
    /\ transactions (working (setup_chart_of_accounts conn))
       = transactions (working conn)
    /\ transaction_entries (working (setup_chart_of_accounts conn))
       = transaction_entries (working conn).
Proof.
  intros conn. unfold setup_chart_of_accounts. split; [|split].
  - intros id a. apply create_accounts_monotone.
  - intros id name ty parent Hin.
    apply (create_accounts_found standard_accounts conn _ Hin).
  - apply create_accounts_ledger.
Qed.

(** ** Posting *)

Lemma str_nat_inj a b : str_nat a = str_nat b -> a = b.
Proof.
  intros H. apply (f_equal read_nat) in H.
  rewrite !read_nat_str_nat in H. congruence.
Qed.

Lemma entry_id_index_inj tid i j : entry_id tid i = entry_id tid j -> i = j.
Proof.
  unfold entry_id. intros H. do 2 apply append_inv_head in H.
  apply str_nat_inj in H. lia.
Qed.



(** X4. [create_transaction] is all or nothing on a connection without
    pending statements: either it reports success and the working and the
    committed database are the old one with the transaction row and one
    entry row per line appended, or it reports an error and the connection
    is the one it was given. *)
Theorem create_transaction_all_or_nothing :
  forall (conn : connection) transaction_id transaction_date description
         entries reference,
    clean conn ->
    let result :=
      create_transaction conn transaction_id transaction_date description
        entries reference in
    let posted :=
      with_posting (working conn)
        {| t_id := transaction_id; t_date := transaction_date;
           t_description := description; t_reference := reference |}
        (rows_from transaction_id 0 entries) in
    (snd result = Created
     /\ working (fst result) = posted /\ committed (fst result) = posted)
    \/ ((exists e, snd result = Error_creating_transaction e)
        /\ fst result = conn).
Proof.
  intros conn tid d desc es ref Hclean result posted.
  unfold result, create_transaction.
  destruct (create_transaction_body _ _ _ _ _ _) as [db'|e] eqn:Hbody;
    cbn [fst snd].
  - left. apply create_transaction_body_shape in Hbody.
    destruct Hbody as [-> _]. repeat split.
  - right. split; [now exists e | now apply clean_rollback].
Qed.







(** ** The history of an account *)







Lemma date_order_total (a b : date) :
  date_ltb a b = true \/ date_eqb a b = true \/ date_ltb b a = true.
Proof.
  destruct a as [y1 m1 d1], b as [y2 m2 d2].
  unfold date_ltb, date_leb, date_eqb. cbn [year month day].
  destruct (Nat.ltb_spec y1 y2), (Nat.eqb_spec y1 y2), (Nat.ltb_spec y2 y1),
    (Nat.eqb_spec y2 y1), (Nat.ltb_spec m1 m2), (Nat.eqb_spec m1 m2),
    (Nat.ltb_spec m2 m1), (Nat.eqb_spec m2 m1), (Nat.leb_spec d1 d2),
    (Nat.leb_spec d2 d1), (Nat.eqb_spec d1 d2), (Nat.eqb_spec d2 d1);
    cbn; try lia; auto.
Qed.

Lemma date_eqb_sym (a b : date) : date_eqb a b = date_eqb b a.
Proof.
  unfold date_eqb.
  now rewrite (Nat.eqb_sym (year a)), (Nat.eqb_sym (month a)),
    (Nat.eqb_sym (day a)).
Qed.

Lemma by_date_then_id_total (x y : transaction_row * entry_row) :
  by_date_then_id x y = false -> by_date_then_id y x = true.
Proof.
  unfold by_date_then_id. intros H. apply orb_false_iff in H.
  destruct H as [Hlt Hrest].
  destruct (date_order_total (t_date (fst x)) (t_date (fst y)))
    as [H | [H | H]].
  - congruence.
  - rewrite H in Hrest. cbn [andb] in Hrest.
    rewrite date_eqb_sym in H. rewrite H. cbn [andb].
    destruct (String.leb_total (t_id (fst x)) (t_id (fst y))) as [Hl | Hl].
    + congruence.
    + rewrite Hl. apply orb_true_r.
  - now rewrite H.
Qed.

Lemma insert_sorted_HdRel (A : Type) (leb : A -> A -> bool) (x y : A) :
  forall l,
    leb y x = true ->
    HdRel (fun a b => leb a b = true) y l ->
    HdRel (fun a b => leb a b = true) y (insert_sorted leb x l).
Proof.
  intros [|z l] Hyx Hhd; cbn; [now constructor|].
  destruct (leb x z); constructor; [exact Hyx|].
  now inversion Hhd.
Qed.

Lemma insert_sorted_Sorted (A : Type) (leb : A -> A -> bool) (x : A) :
  (forall a b, leb a b = false -> leb b a = true) ->
  forall l,
    Sorted (fun a b => leb a b = true) l ->
    Sorted (fun a b => leb a b = true) (insert_sorted leb x l).
Proof.
  intros Htotal. induction l as [|y l IH]; intros Hs; cbn.
  - repeat constructor.
  - destruct (leb x y) eqn:Hxy.
    + constructor; [exact Hs | now constructor].
    + apply Sorted_inv in Hs. destruct Hs as [Hs Hhd]. constructor.
      * now apply IH.
      * apply insert_sorted_HdRel; [now apply Htotal | exact Hhd].
Qed.

Lemma order_by_Sorted (A : Type) (leb : A -> A -> bool) :
  (forall a b, leb a b = false -> leb b a = true) ->
  forall l, Sorted (fun a b => leb a b = true) (order_by leb l).
Proof.
  intros Htotal. induction l as [|x l IH]; cbn.
  - constructor.
  - now apply insert_sorted_Sorted.
Qed.

Lemma firstn_Sorted (A : Type) (R : A -> A -> Prop) :
  forall n l, Sorted R l -> Sorted R (firstn n l).
Proof.
  induction n as [|n IH]; intros [|x l] Hs; cbn; try constructor.
  - apply Sorted_inv in Hs. now apply IH.
  - apply Sorted_inv in Hs. destruct Hs as [_ Hhd].
    destruct l as [|y l]; destruct n; cbn; constructor. now inversion Hhd.
Qed.

Lemma history_loop_Sorted (ty : AccountType) :
  forall rows acc,
    Sorted (fun a b => by_date_then_id a b = true) rows ->
    Sorted (fun r1 r2 => history_leb r1 r2 = true) (history_loop ty acc rows).
Proof.
  induction rows as [|[t te] rows IH]; intros acc Hs; cbn [history_loop].
  - constructor.
  - apply Sorted_inv in Hs. destruct Hs as [Hs Hhd]. constructor.
    + now apply IH.
    + destruct rows as [|[t' te'] rows]; cbn [history_loop]; constructor.
      inversion Hhd as [|? ? Hrel]; subst. exact Hrel.
Qed.

(** X9. The rows of a history come in the order of their dates and, within
    a date, of their transaction ids: each row may stand before the next. *)
Theorem history_in_date_order :
  forall (conn : connection) account_id limit,
    Sorted (fun r1 r2 => history_leb r1 r2 = true)
      (get_account_transaction_history conn account_id limit).
Proof.
  intros conn id limit. unfold get_account_transaction_history.
  destruct (find_account (working conn) id); [|constructor].
  apply history_loop_Sorted, firstn_Sorted, order_by_Sorted.
  exact by_date_then_id_total.
Qed.

(** ** The trial balance and the balance sheet *)

Lemma trial_step_rows (conn : connection) as_of tb td tc a :
  In a (accounts (working conn)) -> a_is_active a = true ->
  Forall (trial_row_ok conn as_of) tb ->
  td = sum (map trial_debit tb) -> tc = sum (map trial_credit tb) ->
  let st' := trial_step conn as_of (tb, td, tc) a in
  Forall (trial_row_ok conn as_of) (fst (fst st'))
  /\ snd (fst st') = sum (map trial_debit (fst (fst st')))
  /\ snd st' = sum (map trial_credit (fst (fst st')))
  /\ (forall r, In r tb -> In r (fst (fst st')))
  /\ (get_account_balance conn (a_id a) as_of <> 0 ->
      exists r, In r (fst (fst st')) /\ trial_id r = a_id a).
Proof.
  intros Hin Hact Htb Htd Htc. unfold trial_step. cbv zeta.
  assert (Hsigned : signed_balance conn as_of a
                    = if debit_normal (a_account_type a)
                      then get_account_balance conn (a_id a) as_of
                      else - get_account_balance conn (a_id a) as_of)
    by reflexivity.
  set (b := get_account_balance conn (a_id a) as_of) in *.
  assert (Hrow : forall d c td' tc',
             0 <= d -> 0 <= c -> (d = 0 \/ c = 0) -> d + c = Z.abs b ->
             d - c = signed_balance conn as_of a -> b <> 0 ->
             td' = td + d -> tc' = tc + c ->
             Forall (trial_row_ok conn as_of)
               (tb ++ [(a_id a, a_name a, d, c)])%list
             /\ td' = sum (map trial_debit
                             (tb ++ [(a_id a, a_name a, d, c)])%list)
             /\ tc' = sum (map trial_credit
                             (tb ++ [(a_id a, a_name a, d, c)])%list)
             /\ (forall r, In r tb ->
                           In r (tb ++ [(a_id a, a_name a, d, c)])%list)
             /\ (b <> 0 ->
                 exists r, In r (tb ++ [(a_id a, a_name a, d, c)])%list
                           /\ trial_id r = a_id a)).
  { intros d c td' tc' Hd Hc Hone Habs Hnet Hb -> ->.
    split; [|split; [|split; [|split]]].
    - apply Forall_app. split; [exact Htb|]. constructor; [|constructor].
      exists a. unfold trial_id, trial_name, trial_debit, trial_credit.
      cbn [fst snd]. fold b. tauto.
    - rewrite map_app, sum_app. cbn [map]. rewrite sum_cons, sum_nil.
      unfold trial_debit at 2. cbn [fst snd]. lia.
    - rewrite map_app, sum_app. cbn [map]. rewrite sum_cons, sum_nil.
      unfold trial_credit at 2. cbn [fst snd]. lia.
    - intros r Hr. apply in_or_app. now left.
    - intros _. exists (a_id a, a_name a, d, c). split; [|reflexivity].
      apply in_or_app. right. now left. }
  destruct (Z.eqb_spec b 0) as [Hz | Hnz]; cbn [negb].
  - cbn [fst snd]. repeat split; trivial. contradiction.
  - destruct (a_account_type a) eqn:Hty;
      cbn [debit_normal credit_normal andb] in *;
      destruct (Z.ltb_spec 0 b); cbn [fst snd andb];
      try (apply Hrow; lia);
      destruct (Z.ltb_spec b 0); cbn [fst snd]; try lia;
      apply Hrow; lia.
Qed.

Lemma trial_fold_rows (conn : connection) as_of :
  forall accs tb td tc,
    (forall a, In a accs ->
               In a (accounts (working conn)) /\ a_is_active a = true) ->
    Forall (trial_row_ok conn as_of) tb ->
    td = sum (map trial_debit tb) -> tc = sum (map trial_credit tb) ->
    let st' := fold_left (trial_step conn as_of) accs (tb, td, tc) in
    Forall (trial_row_ok conn as_of) (fst (fst st'))
    /\ snd (fst st') = sum (map trial_debit (fst (fst st')))
    /\ snd st' = sum (map trial_credit (fst (fst st')))
    /\ (forall r, In r tb -> In r (fst (fst st')))
    /\ (forall a, In a accs ->
                  get_account_balance conn (a_id a) as_of <> 0 ->
                  exists r, In r (fst (fst st')) /\ trial_id r = a_id a).
Proof.
  induction accs as [|a accs IH]; intros tb td tc Hacc Htb Htd Htc.
  - cbn. repeat split; trivial. intros a [].
  - cbn [fold_left].
    destruct (Hacc a (or_introl eq_refl)) as [Hin Hact].
    pose proof (trial_step_rows conn as_of tb td tc a Hin Hact Htb Htd Htc)
      as Hstep.
    destruct (trial_step conn as_of (tb, td, tc) a) as [[tb1 td1] tc1].
    cbn [fst snd] in Hstep. cbv zeta in Hstep.
    destruct Hstep as (Htb1 & Htd1 & Htc1 & Hkeep1 & Hnew1).
    destruct (IH tb1 td1 tc1 (fun x Hx => Hacc x (or_intror Hx)) Htb1 Htd1 Htc1)
      as (H1 & H2 & H3 & Hkeep & Hnew).
    cbv zeta. split; [exact H1|]. split; [exact H2|]. split; [exact H3|].
    split.
    + intros r Hr. apply Hkeep, Hkeep1, Hr.
    + intros x [<- | Hx] Hb.
      * destruct (Hnew1 Hb) as (r & Hr & Hid). exists r. split; [|exact Hid].
        now apply Hkeep.
      * now apply Hnew.
Qed.

Lemma trial_balance_shape (conn : connection) as_of :
  exists rows,
    generate_trial_balance conn as_of
    = (rows ++ [("TOTAL", "TOTAL", sum (map trial_debit rows),
                 sum (map trial_credit rows))])%list
    /\ Forall (trial_row_ok conn as_of) rows
    /\ (forall a, In a (accounts (working conn)) -> a_is_active a = true ->
                  get_account_balance conn (a_id a) as_of <> 0 ->
                  exists r, In r rows /\ trial_id r = a_id a).
Proof.
  unfold generate_trial_balance.
  pose proof (trial_fold_rows conn as_of (active_accounts (working conn))
                [] 0 0) as H.
  destruct (fold_left _ _ _) as [[tb td] tc]. cbn [fst snd] in H.
  destruct H as (H1 & H2 & H3 & _ & H5); try reflexivity.
  - intros a Ha. now apply active_accounts_In.
  - constructor.
  - exists tb. rewrite H2, H3. split; [reflexivity|]. split; [exact H1|].
    intros a Hin Hact. apply H5. now apply active_accounts_In.
Qed.


(** X11. Every row of the trial balance above TOTAL is the row of an active
    account whose balance is not zero: it carries the id and the name of the
    account, no negative number, one column at zero and the absolute value
    of the balance in the other, on the debit side for a positive balance of
    an ASSET or EXPENSE account and for a negative balance of the other
    types.  Every active account whose balance is not zero has a row. *)
Theorem trial_balance_rows :
  forall (conn : connection) as_of_date,
    (forall r, In r (removelast (generate_trial_balance conn as_of_date)) ->
       exists a,
         In a (accounts (working conn)) /\ a_is_active a = true
         /\ trial_id r = a_id a /\ trial_name r = a_name a
         /\ get_account_balance conn (a_id a) as_of_date <> 0
         /\ 0 <= trial_debit r /\ 0 <= trial_credit r
         /\ (trial_debit r = 0 \/ trial_credit r = 0)
         /\ trial_debit r + trial_credit r
            = Z.abs (get_account_balance conn (a_id a) as_of_date)
         /\ trial_debit r - trial_credit r
            = (if debit_normal (a_account_type a)
               then get_account_balance conn (a_id a) as_of_date
               else - get_account_balance conn (a_id a) as_of_date))
    /\ (forall a,
          In a (accounts (working conn)) -> a_is_active a = true ->
          get_account_balance conn (a_id a) as_of_date <> 0 ->
          exists r,
            In r (removelast (generate_trial_balance conn as_of_date))
            /\ trial_id r = a_id a).
Proof.
  intros conn as_of.
  destruct (trial_balance_shape conn as_of) as (rows & -> & Hok & Hall).
  rewrite removelast_last. split.
  - intros r Hr. rewrite Forall_forall in Hok. exact (Hok r Hr).
  - exact Hall.
Qed.











(** ** Import and export *)

Lemma import_record_appends (conn : connection) cash r conn' b :
  clean conn ->
  import_record conn cash r = (conn', b) ->
  clean conn'
  /\ accounts (working conn') = accounts (working conn)
  /\ exists new_t new_e,
       transactions (working conn')
       = (transactions (working conn) ++ new_t)%list
       /\ transaction_entries (working conn')
          = (transaction_entries (working conn) ++ new_e)%list
       /\ List.length new_t = (if b then 1 else 0)%nat
       /\ forall t, In t new_t -> t_id t = "OFX_" ++ fstr (fitid r).
Proof.
  intros Hclean. unfold import_record.
  assert (Hskip : (conn, false) = (conn', b) ->
            clean conn'
            /\ accounts (working conn') = accounts (working conn)
            /\ exists new_t new_e,
                 transactions (working conn')
                 = (transactions (working conn) ++ new_t)%list
                 /\ transaction_entries (working conn')
                    = (transaction_entries (working conn) ++ new_e)%list
                 /\ List.length new_t = (if b then 1 else 0)%nat
                 /\ forall t, In t new_t -> t_id t = "OFX_" ++ fstr (fitid r)).
  { intros [= <- <-]. split; [exact Hclean|]. split; [reflexivity|].
    exists [], []. rewrite !app_nil_r.
    split; [reflexivity|]. split; [reflexivity|]. split; [reflexivity|].
    intros t []. }
  destruct (dtposted r) as [posted|]; [|exact Hskip].
  destruct (strptime_Ymd _) as [trn_date|]; [|exact Hskip].
  destruct (trnamt r) as [amt|]; [|exact Hskip].
  destruct (Decimal_of_string amt) as [amount|]; [|exact Hskip].
  cbv zeta. destruct (transaction_exists _ _); [exact Hskip|].
  unfold create_transaction.
  destruct (create_transaction_body _ _ _ _ _ _) as [db'|e] eqn:Hbody.
  - intros [= <- <-]. apply create_transaction_body_shape in Hbody.
    destruct Hbody as [-> _]. split; [reflexivity|]. split; [reflexivity|].
    eexists [_], _. cbn [working commit execute with_posting transactions
                         transaction_entries returned].
    split; [reflexivity|]. split; [reflexivity|]. split; [reflexivity|].
    intros t [<- | []]. reflexivity.
  - rewrite (clean_rollback _ Hclean). exact Hskip.
Qed.

Lemma import_loop_appends cash :
  forall records (conn : connection) n conn' n',
    clean conn ->
    import_loop conn cash records n = (conn', n') ->
    clean conn'
    /\ accounts (working conn') = accounts (working conn)
    /\ exists new_t new_e,
         transactions (working conn')
         = (transactions (working conn) ++ new_t)%list
         /\ transaction_entries (working conn')
            = (transaction_entries (working conn) ++ new_e)%list
         /\ n' = (n + List.length new_t)%nat
         /\ forall t, In t new_t ->
              exists r, In r records /\ t_id t = "OFX_" ++ fstr (fitid r).
Proof.
  induction records as [|r rest IH]; intros conn n conn' n' Hclean.
  - cbn. intros [= <- <-]. split; [exact Hclean|]. split; [reflexivity|].
    exists [], []. rewrite !app_nil_r.
    split; [reflexivity|]. split; [reflexivity|]. split; [cbn; lia|].
    intros t [].
  - cbn [import_loop].
    destruct (import_record conn cash r) as [c1 b] eqn:Hrec. intros Hloop.
    destruct (import_record_appends _ _ _ _ _ Hclean Hrec)
      as (Hc1 & Ha1 & t1 & e1 & Ht1 & He1 & Hlen1 & Hid1).
    destruct (IH _ _ _ _ Hc1 Hloop)
      as (Hc' & Ha' & t2 & e2 & Ht2 & He2 & Hlen2 & Hid2).
    split; [exact Hc'|]. split; [congruence|].
    exists (t1 ++ t2)%list, (e1 ++ e2)%list.
    rewrite Ht2, Ht1, He2, He1, <- !app_assoc.
    split; [reflexivity|]. split; [reflexivity|]. split.
    + rewrite length_app. destruct b; lia.
    + intros t Ht. apply in_app_or in Ht. destruct Ht as [Ht | Ht].
      * exists r. split; [now left | now apply Hid1].
      * destruct (Hid2 t Ht) as (r' & Hr' & Hid). exists r'.
        split; [now right | exact Hid].
Qed.

(** X14. An import only appends: on a connection without pending statements
    it leaves the accounts and every existing transaction and entry row as
    they are, every transaction it adds carries the id [OFX_<fitid>] of a
    record of the statement, and the count it returns is the number of
    transactions it added. *)
Theorem import_only_appends :
  forall (conn conn' : connection) parsed file_hash now cash_account_id res,
    clean conn ->
    import_ofx_transactions conn parsed file_hash now cash_account_id
    = (conn', res) ->
    clean conn'
    /\ accounts (working conn') = accounts (working conn)
    /\ exists new_t new_e,
         transactions (working conn')
         = (transactions (working conn) ++ new_t)%list
         /\ transaction_entries (working conn')
            = (transaction_entries (working conn) ++ new_e)%list
         /\ (forall n, res = Ok n -> List.length new_t = n)
         /\ forall t, In t new_t ->
              exists data r,
                parsed = Some data /\ In r (stmttrns data)
                /\ t_id t = "OFX_" ++ fstr (fitid r).
Proof.
  intros conn conn' parsed h now cash res Hclean.
  unfold import_ofx_transactions. destruct parsed as [data|].
  2:{ intros [= <- <-]. split; [exact Hclean|]. split; [reflexivity|].
      exists [], []. rewrite !app_nil_r.
      split; [reflexivity|]. split; [reflexivity|].
      split; [now intros n [= <-] | intros t []]. }
  destruct (import_loop conn cash (stmttrns data) 0) as [c1 n1] eqn:Hloop.
  destruct (import_loop_appends _ _ _ _ _ _ Hclean Hloop)
    as (Hc1 & Ha1 & new_t & new_e & Ht & He & Hn & Hids).
  assert (Hids' : forall t, In t new_t ->
            exists data0 r, Some data = Some data0 /\ In r (stmttrns data0)
                            /\ t_id t = "OFX_" ++ fstr (fitid r)).
  { intros t Hin. destruct (Hids t Hin) as (r & Hr & Hid). now exists data, r. }
  destruct (insert_import (working c1) _) as [db'|e] eqn:Hins.
  - intros [= <- <-]. apply insert_import_same_ledger in Hins.
    destruct Hins as (Ha & Ht' & He'). cbn [working commit execute].
    split; [reflexivity|]. split; [congruence|].
    exists new_t, new_e. rewrite Ht', He'.
    split; [exact Ht|]. split; [exact He|]. split; [|exact Hids'].
    intros n [= <-]. lia.
  - intros [= <- <-]. split; [exact Hc1|]. split; [exact Ha1|].
    exists new_t, new_e. split; [exact Ht|]. split; [exact He|].
    split; [discriminate | exact Hids'].
Qed.

(** X15. [export_to_ofx] raises for an account that is not in the store and
    otherwise exports nothing but the entries of that account whose
    transaction is dated within the range: every exported record is the
    record of such an entry, and it is typed CREDIT exactly when its amount
    is positive. *)
Theorem export_only_matching_entries :
  forall (conn : connection) account_id start_date end_date,
    (find_account (working conn) account_id = None ->
     export_to_ofx conn account_id start_date end_date
     = Raise (ValueError_account_not_found account_id))
    /\ (forall exported x,
          export_to_ofx conn account_id start_date end_date = Ok exported ->
          In x exported ->
          find_account (working conn) account_id <> None
          /\ (x_trntype x = "CREDIT" <-> 0 < x_trnamt x)
          /\ exists t te,
               In te (transaction_entries (working conn))
               /\ e_account_id te = account_id
               /\ find_transaction (working conn) (e_transaction_id te)
                  = Some t
               /\ date_between (t_date t) start_date end_date = true
               /\ x = export_trn (t, te)).
Proof.
  intros conn id s e. unfold export_to_ofx. split.
  - now intros ->.
  - intros exported x.
    destruct (find_account (working conn) id); [|discriminate].
    intros [= <-] Hin. split; [discriminate|].
    apply in_map_iff in Hin. destruct Hin as ([t te] & <- & Hin).
    unfold export_rows in Hin. apply order_by_In in Hin.
    apply filter_In in Hin. destruct Hin as [Hin Hrange].
    apply joined_entries_In in Hin. split.
    + cbn [export_trn x_trntype x_trnamt].
      destruct (Z.ltb_spec 0 (export_amount te)); split; intros H0;
        try discriminate; try lia; reflexivity.
    + exists t, te. cbn [fst] in Hrange. tauto.
Qed.

(** ** The books *)


(** ** Routes that change the tables *)

Lemma database_eta (db : database) :
  {| accounts := accounts db; transactions := transactions db;
     transaction_entries := transaction_entries db;
     ofx_imports := ofx_imports db |} = db.
Proof. now destruct db. Qed.






Lemma insert_entries_pending_free tid :
  forall entries i (db : database),
    (forall j, (i <= j)%nat -> entry_exists db (entry_id tid j) = false) ->
    insert_entries_pending tid i entries db
    = ({| accounts := accounts db; transactions := transactions db;
          transaction_entries :=
            (transaction_entries db ++ rows_from tid i entries)%list;
          ofx_imports := ofx_imports db |}, None).
Proof.
  induction entries as [|line rest IH]; intros i db Hfree.
  - cbn. now rewrite app_nil_r, database_eta.
  - cbn [insert_entries_pending rows_from]. unfold insert_entry at 1.
    assert (Hid : e_id (entry_row_of tid i line) = entry_id tid i)
      by (now destruct line as [[[? ?] ?] ?]).
    rewrite Hid.
    pose proof (Hfree i (Nat.le_refl i)) as Hi. unfold entry_exists in Hi.
    rewrite Hi. rewrite IH.
    + cbn [accounts transactions transaction_entries ofx_imports].
      now rewrite <- app_assoc.
    + intros j Hj. unfold entry_exists. cbn [transaction_entries].
      rewrite existsb_snoc, Hid.
      pose proof (Hfree j ltac:(lia)) as Hj'. unfold entry_exists in Hj'.
      rewrite Hj'. cbn [orb]. apply String.eqb_neq. intros Heq.
      apply entry_id_index_inj in Heq. lia.
Qed.

Lemma edit_transaction_balanced (conn : connection) tid d desc ref lines :
  entries_owned (working conn) ->
  sum (map entry_debit (form_entries lines))
  = sum (map entry_credit (form_entries lines)) ->
  edit_transaction conn tid d desc ref lines
  = (commit (execute conn
       (edited (working conn) tid d desc ref (form_entries lines))), Updated).
Proof.
  intros Hown Hbal. unfold edit_transaction. cbv zeta.
  rewrite Hbal, Z.eqb_refl. cbn [negb].
  rewrite insert_entries_pending_free; [reflexivity|].
  intros j _. unfold entry_exists, update_transaction_row, delete_entries_of.
  cbn [transaction_entries].
  destruct (existsb _ _) eqn:Hex; [|reflexivity].
  apply existsb_exists in Hex. destruct Hex as (te & Hin & Hid).
  apply filter_In in Hin. destruct Hin as [Hin Hne].
  apply String.eqb_eq in Hid. destruct (Hown te Hin) as (_ & i & Hi).
  rewrite Hi in Hid. apply entry_id_inj in Hid.
  rewrite Hid, String.eqb_refl in Hne. discriminate.
Qed.


Lemma update_transaction_row_ids (db : database) tid d desc ref :
  map t_id (transactions (update_transaction_row db tid d desc ref))
  = map t_id (transactions db).
Proof.
  unfold update_transaction_row. cbn [transactions]. rewrite map_map.
  apply map_ext. intros t. now destruct (t_id t =? tid)%string.
Qed.

Lemma transaction_exists_ids (db1 db2 : database) id :
  map t_id (transactions db1) = map t_id (transactions db2) ->
  transaction_exists db1 id = transaction_exists db2 id.
Proof.
  intros Hids.
  destruct (transaction_exists db1 id) eqn:H1,
    (transaction_exists db2 id) eqn:H2; trivial.
  - apply transaction_exists_In in H1. rewrite Hids in H1.
    apply transaction_exists_In in H1. congruence.
  - apply transaction_exists_In in H2. rewrite <- Hids in H2.
    apply transaction_exists_In in H2. congruence.
Qed.

(** X20. A balanced edit of a transaction that exists keeps the store in
    order: ids stay unique, every entry belongs to a transaction, and the
    entries of every transaction, the edited one included, balance.  The
    amounts of the form are kept exactly by the store. *)
Theorem edit_transaction_keeps_order :
  forall (conn : connection) transaction_id trn_date description reference
         lines,
    ledger_ok (working conn) ->
    transaction_exists (working conn) transaction_id = true ->
    stored_exactly (form_entries lines) ->
    sum (map entry_debit (form_entries lines))
    = sum (map entry_credit (form_entries lines)) ->
    ledger_ok
      (working (fst (edit_transaction conn transaction_id trn_date
                       description reference lines))).
Proof.
  intros conn tid d desc ref lines Hok Hex Hexact Hbal.
  rewrite (edit_transaction_balanced conn tid d desc ref lines
             (ok_entries_owned _ Hok) Hbal).
  cbn [fst working commit execute].
  set (db := working conn) in *. set (es := form_entries lines) in *.
  destruct Hok as [Ha Ht Hown Hbalanced].
  assert (Hids : map t_id (transactions (edited db tid d desc ref es))
                 = map t_id (transactions db))
    by apply update_transaction_row_ids.
  assert (Hkeep : forall id, id <> tid ->
            entries_of_transaction (edited db tid d desc ref es) id
            = entries_of_transaction db id).
  { intros id Hne. unfold entries_of_transaction, edited.
    cbn [transaction_entries]. rewrite filter_app, <- filter_andb.
    rewrite (filter_none _ _ (rows_from tid 0 es)).
    - rewrite app_nil_r. apply filter_ext. intros te.
      destruct (String.eqb_spec (e_transaction_id te) id) as [-> |];
        [|reflexivity].
      cbn [andb]. apply negb_true_iff, String.eqb_neq. exact Hne.
    - intros te Hte. apply rows_from_transaction_id in Hte.
      rewrite Hte. apply String.eqb_neq. now apply not_eq_sym. }
  assert (Hnew : entries_of_transaction (edited db tid d desc ref es) tid
                 = rows_from tid 0 es).
  { unfold entries_of_transaction, edited. cbn [transaction_entries].
    rewrite filter_app, <- filter_andb.
    rewrite (filter_none _ _ (transaction_entries db)).
    - cbn [app]. apply filter_all. intros te Hte.
      apply rows_from_transaction_id in Hte. rewrite Hte.
      apply String.eqb_refl.
    - intros te _. destruct (e_transaction_id te =? tid)%string; reflexivity. }
  constructor.
  - exact Ha.
  - rewrite Hids. exact Ht.
  - intros te Hte. rewrite (transaction_exists_ids _ db _ Hids).
    unfold edited in Hte. cbn [transaction_entries] in Hte.
    apply in_app_or in Hte. destruct Hte as [Hte | Hte].
    + apply filter_In in Hte. now apply Hown.
    + split; [|now apply rows_from_entry_id in Hte].
      apply rows_from_transaction_id in Hte. now rewrite Hte.
  - intros t Hin.
    destruct (String.eqb_spec (t_id t) tid) as [Heq | Hne].
    + rewrite Heq, Hnew, rows_from_net by exact Hexact. lia.
    + rewrite (Hkeep _ Hne).
      assert (Hid : In (t_id t) (map t_id (transactions db)))
        by (rewrite <- Hids; now apply in_map).
      apply in_map_iff in Hid. destruct Hid as (t0 & Hid0 & Hin0).
      rewrite <- Hid0. now apply Hbalanced.
Qed.






(** X22. An account that was active has no row in the trial balance once it
    is toggled, whatever its balance. *)
Theorem trial_balance_omits_deactivated :
  forall (conn : connection) account_id as_of_date,
    (forall a, In a (accounts (working conn)) -> a_id a = account_id ->
               a_is_active a = true) ->
    forall r,
      In r (removelast
              (generate_trial_balance (toggle_account conn account_id)
                 as_of_date)) ->
      trial_id r <> account_id.
Proof.
  intros conn id as_of Hactive r Hr.
  destruct (trial_balance_shape (toggle_account conn id) as_of)
    as (rows & Heq & Hok & _).
  rewrite Heq, removelast_last in Hr. rewrite Forall_forall in Hok.
  destruct (Hok r Hr) as (a' & Hin & Hact & Hid & _).
  unfold toggle_account in Hin. cbn [working commit execute accounts] in Hin.
  apply in_map_iff in Hin. destruct Hin as (a & Ha' & Hin).
  rewrite Hid. intros Heq'.
  assert (Hida : a_id a' = a_id a).
  { rewrite <- Ha'. now destruct (a_id a =? id)%string. }
  assert (Ha : a_id a = id) by congruence.
  pose proof (Hactive a Hin Ha) as Hwas.
  rewrite <- Ha' in Hact. apply String.eqb_eq in Ha. rewrite Ha in Hact.
  cbn [a_is_active] in Hact. rewrite Hwas in Hact. discriminate.
Qed.


End MoreProperties.

(** * The further properties at concrete inputs *)



Lemma capital_ledger_ok : ledger_ok (working Sample.capital).
Proof.
  exact (proj2 (@reachable_ok ExactReal Sample.parsers Sample.capital
                  capital_reachable)).
Qed.


(** X4 on the sample ledger: a payment of 150 for office supplies. *)
Lemma create_transaction_all_or_nothing_witness :
  clean Sample.capital
  /\ let result :=
       create_transaction Sample.capital "SAMPLE002" Sample.jan20
         "Office supplies purchase"
         [ ("5240", 150, 0, "Office supplies");
           ("1110", 0, 150, "Cash payment") ] None in
     let posted :=
       with_posting (working Sample.capital)
         {| t_id := "SAMPLE002"; t_date := Sample.jan20;
            t_description := "Office supplies purchase";
            t_reference := None |}
         (rows_from "SAMPLE002" 0
            [ ("5240", 150, 0, "Office supplies");
              ("1110", 0, 150, "Cash payment") ]) in
     (snd result = Created
      /\ working (fst result) = posted /\ committed (fst result) = posted)
     \/ ((exists e, snd result = Error_creating_transaction e)
         /\ fst result = Sample.capital).
Proof.
  assert (Hclean : clean Sample.capital) by reflexivity.
  split; [exact Hclean|].
  exact (create_transaction_all_or_nothing Sample.capital "SAMPLE002"
           Sample.jan20 "Office supplies purchase"
           [ ("5240", 150, 0, "Office supplies");
             ("1110", 0, 150, "Cash payment") ] None Hclean).
Defined.






(** X14 on the sample ledger: the statement with one payment. *)
Lemma import_only_appends_witness :
  let imported :=
    @import_ofx_transactions ExactReal Sample.parsers Sample.capital
      (Some Sample.statement) "d41d8cd9" "2024-01-21T10:00:00" "1110" in
  clean Sample.capital
  /\ snd imported = Ok 1%nat
  /\ accounts (working (fst imported)) = accounts (working Sample.capital)
  /\ exists new_t new_e,
       transactions (working (fst imported))
       = (transactions (working Sample.capital) ++ new_t)%list
       /\ transaction_entries (working (fst imported))
          = (transaction_entries (working Sample.capital) ++ new_e)%list
       /\ List.length new_t = 1%nat.
Proof.
  intros imported.
  assert (Hclean : clean Sample.capital) by reflexivity.
  destruct (@import_only_appends ExactReal Sample.parsers Sample.capital
              (fst imported) (Some Sample.statement) "d41d8cd9"
              "2024-01-21T10:00:00" "1110" (snd imported) Hclean
              (surjective_pairing imported))
    as (_ & Hacc & new_t & new_e & Ht & He & Hn & _).
  split; [exact Hclean|]. split; [reflexivity|]. split; [exact Hacc|].
  exists new_t, new_e. split; [exact Ht|]. split; [exact He|].
  exact (Hn 1%nat eq_refl).
Defined.




(** X20 on the sample ledger. *)
Lemma edit_transaction_keeps_order_witness :
  let lines :=
    [ ("1110", 12000, 0, "Cash deposit");
      ("3100", 0, 12000, "Owner investment") ] in
  ledger_ok (working Sample.capital)
  /\ transaction_exists (working Sample.capital) "SAMPLE001" = true
  /\ @stored_exactly ExactReal (form_entries lines)
  /\ sum (map entry_debit (form_entries lines))
     = sum (map entry_credit (form_entries lines))
  /\ ledger_ok
       (working (fst (edit_transaction Sample.capital "SAMPLE001"
                        Sample.jan20 "Capital" "R-1" lines))).
Proof.
  intros lines.
  assert (Hbal : sum (map entry_debit (form_entries lines))
                 = sum (map entry_credit (form_entries lines)))
    by reflexivity.
  split; [exact capital_ledger_ok|]. split; [reflexivity|].
  split; [apply exact_real_stored_exactly|]. split; [exact Hbal|].
  exact (edit_transaction_keeps_order Sample.capital "SAMPLE001" Sample.jan20
           "Capital" "R-1" lines capital_ledger_ok eq_refl
           (exact_real_stored_exactly _) Hbal).
Defined.

(** X22 on the sample ledger: with the cash account toggled, the trial
    balance shows the equity account alone. *)
Lemma trial_balance_omits_deactivated_witness :
  (forall a, In a (accounts (working Sample.capital)) -> a_id a = "1110" ->
             a_is_active a = true)
  /\ In ("3100", "Owner's Equity", 0, 10000)
       (removelast
          (generate_trial_balance (toggle_account Sample.capital "1110") None))
  /\ trial_id ("3100", "Owner's Equity", 0, 10000) <> "1110".
Proof.
  assert (Hactive : forall a, In a (accounts (working Sample.capital)) ->
                              a_id a = "1110" -> a_is_active a = true).
  { intros a Hin _. cbn in Hin.
    repeat (destruct Hin as [<- | Hin]; [reflexivity|]). destruct Hin. }
  assert (Hin : In ("3100", "Owner's Equity", 0, 10000)
                  (removelast
                     (generate_trial_balance
                        (toggle_account Sample.capital "1110") None)))
    by (left; reflexivity).
  split; [exact Hactive|]. split; [exact Hin|].
  exact (trial_balance_omits_deactivated Sample.capital "1110" None Hactive
           _ Hin).
Defined.
